(** * FlaskChat: the connection registry and message router of [app.py]

    A shallow embedding of the Socket.IO handlers of [src/app.py].  The three
    module-level tables ([users], [message_history], [last_msg_time]) become
    one [State] record that every handler receives and returns; what a
    handler [emit]s becomes the list of [Emit]s it returns, in program order.

    What the handlers read from their environment is passed in explicitly:
    - [request.sid] is the [sid] argument;
    - [time.time()] is the [now] argument, a binary64 float as in Python;
    - [_now_iso()] is the [ts] argument (the ISO-8601 text);
    - [random.randint(1000, 9999)] and [random.choice(["boy", "girl"])] are
      the [n] and [pick] arguments;
    - the fields of the [data] payload are the [option string] arguments,
      [None] standing for an absent key (or JSON null).

    A Python [str] is a [string] whose characters are read as code points
    below 256. *)

From Stdlib Require Import Floats.
From stdpp Require Import gmap strings list pretty.

(** ** Strings *)

Module Str.

(** [str.isspace] on code points below 256. *)
Definition isspace (c : Ascii.ascii) : bool :=
  let n := Ascii.N_of_ascii c in
  ((9 <=? n) && (n <=? 13) || (28 <=? n) && (n <=? 32)
   || (n =? 133) || (n =? 160))%N.

Fixpoint lstrip (s : string) : string :=
  match s with
  | EmptyString => EmptyString
  | String c s' => if isspace c then lstrip s' else s
  end.

Fixpoint rstrip (s : string) : string :=
  match s with
  | EmptyString => EmptyString
  | String c s' =>
      match rstrip s' with
      | EmptyString => if isspace c then EmptyString else String c EmptyString
      | r => String c r
      end
  end.

(** [s.strip()] *)
Definition strip (s : string) : string := rstrip (lstrip s).

(** [x or ""] for [x = data.get(key)]. *)
Definition or_empty (x : option string) : string :=
  match x with
  | Some s => s
  | None => ""
  end.

(** Truthiness of a [str]: [not s] holds exactly for the empty string. *)
Definition truthy (s : string) : bool :=
  match s with
  | EmptyString => false
  | String _ _ => true
  end.

Fixpoint all_space (s : string) : bool :=
  match s with
  | EmptyString => true
  | String c s' => isspace c && all_space s'
  end.

End Str.

(** ** Insertion-ordered dictionaries

  [users] is a Python [dict]: iteration follows insertion order, assigning
  to a key that is present keeps its position, and [find_by_name] as well
  as the presence listing depend on that order.  Hence an association
  list, with the three operations the handlers use. *)

Module Dict.
Section dict.
Context {V : Type}.

(** [d.get(k)] *)
Fixpoint get (k : string) (d : list (string * V)) : option V :=
  match d with
  | [] => None
  | (k', v) :: d' => if decide (k' = k) then Some v else get k d'
  end.

(** [d[k] = v] *)
Fixpoint set (k : string) (v : V) (d : list (string * V)) : list (string * V) :=
  match d with
  | [] => [(k, v)]
  | (k', v') :: d' =>
      if decide (k' = k) then (k', v) :: d' else (k', v') :: set k v d'
  end.

(** [d.pop(k, None)]: the removed value and the remaining dictionary. *)
Fixpoint pop (k : string) (d : list (string * V)) : option V * list (string * V) :=
  match d with
  | [] => (None, [])
  | (k', v) :: d' =>
      if decide (k' = k) then (Some v, d')
      else let '(r, d'') := pop k d' in (r, (k', v) :: d'')
  end.

Definition keys (d : list (string * V)) : list string := d.*1.
Definition values (d : list (string * V)) : list V := d.*2.
End dict.
End Dict.

(** ** [collections.deque(maxlen=...)]

    [deque.append] puts the item at the right end and, when the length then
    exceeds [maxlen], drops one item from the left end. *)

Definition deque_append {A : Type} (maxlen : nat) (x : A) (d : list A) : list A :=
  let d' := d ++ [x] in
  if decide (maxlen < length d') then tail d' else d'.

(** ** Data *)

(** A value of [users]: [{"username": .., "avatar": .., "gender": ..}]. *)
Record User := mkUser {
  username : string;
  avatar : string;
  gender : string
}.

(** [message_data] of [on_send_message]. *)
Record PublicMessage := mkPublic {
  pub_username : string;
  pub_avatar : string;
  pub_message : string;
  pub_timestamp : string
}.

(** [message_data] of [on_private_message]. *)
Record PrivateMessage := mkPrivate {
  priv_from : string;
  priv_to : string;
  priv_avatar : string;
  priv_message : string;
  priv_timestamp : string
}.

(** One entry of [_online_users_payload()]. *)
Record Presence := mkPresence {
  pres_username : string;
  pres_avatar : string
}.

(** The in-memory state of the module. *)
Record State := mkState {
  users : list (string * User);
  message_history : list PublicMessage;
  last_msg_time : gmap string float
}.

Definition MAX_HISTORY : nat := 150.
Definition MIN_SECONDS_BETWEEN_MSGS : float := 0.25%float.

Definition initial : State :=
  {| users := []; message_history := []; last_msg_time := ∅ |}.

(** ** Outbound events *)

(** Whom an [emit] reaches: the default inside a handler is the room of
    [request.sid]; [room=sid] names a room; [broadcast=True] reaches every
    client, or every client but the sender with [include_self=False]. *)
Inductive Target :=
  | Room (sid : string)
  | Broadcast
  | BroadcastOthers (sender : string).

Inductive Payload :=
  | set_username (name : string)
  | message_history_ev (messages : list PublicMessage)
  | user_joined (name avatar_url : string)
  | user_left (name : string)
  | online_users_list (listing : list Presence)
  | new_message (m : PublicMessage)
  | username_updated (old_username new_username avatar_url : string)
  | avatar_updated (name avatar_url : string)
  | user_typing (name : string) (isTyping : bool)
  | private_message (m : PrivateMessage).

Record Emit := mkEmit { target : Target; payload : Payload }.

(** ** Helpers *)

Inductive Pick := boy | girl.

(** The string [random.choice(["boy", "girl"])] returns. *)
Definition pick_str (p : Pick) : string :=
  match p with
  | boy => "boy"
  | girl => "girl"
  end.

Definition avatar_url (g name : string) : string :=
  "https://avatar.iran.liara.run/public/" +:+ g +:+ "?username=" +:+ name.

(** [_build_avatar(username, gender)]; [pick] is what [random.choice] gives
    when it is asked. *)
Definition _build_avatar (pick : Pick) (name : string) (g : option string) : string :=
  let g' :=
    match g with
    | Some g0 => if Str.truthy g0 then g0 else pick_str pick
    | None => pick_str pick
    end in
  avatar_url g' name.

Definition _get_user (s : State) (sid : string) : option User :=
  Dict.get sid (users s).

Definition _online_users_payload (us : list (string * User)) : list Presence :=
  (λ u, mkPresence (username u) (avatar u)) <$> Dict.values us.

(** [last_msg_time[sid]] read: a [defaultdict] stores the default under a
    missing key when it is read. *)
Definition defaultdict_read (sid : string) (m : gmap string float)
  : float * gmap string float :=
  match m !! sid with
  | Some t => (t, m)
  | None => (0%float, <[sid := 0%float]> m)
  end.

(** The scan of [on_private_message] for the first user named [name]. *)
Fixpoint find_by_name (name : string) (us : list (string * User)) : option string :=
  match us with
  | [] => None
  | (sid, u) :: us' =>
      if decide (username u = name) then Some sid else find_by_name name us'
  end.

(** ** Handlers *)

Definition on_connect (sid : string) (n : N) (pick : Pick) (s : State)
  : State * list Emit :=
  let name := "User_" +:+ pretty n in
  let g := pick_str pick in
  let url := _build_avatar pick name (Some g) in
  let us := Dict.set sid (mkUser name url g) (users s) in
  (mkState us (message_history s) (last_msg_time s),
   [ mkEmit (Room sid) (set_username name);
     mkEmit (Room sid) (message_history_ev (message_history s));
     mkEmit Broadcast (user_joined name url);
     mkEmit Broadcast (online_users_list (_online_users_payload us)) ]).

Definition on_disconnect (sid : string) (s : State) : State * list Emit :=
  let '(user, us) := Dict.pop sid (users s) in
  match user with
  | None => (mkState us (message_history s) (last_msg_time s), [])
  | Some u =>
      (mkState us (message_history s) (last_msg_time s),
       [ mkEmit Broadcast (user_left (username u));
         mkEmit Broadcast (online_users_list (_online_users_payload us)) ])
  end.

Definition on_send_message (sid : string) (now : float) (ts : string)
    (message : option string) (s : State) : State * list Emit :=
  let '(last, lmt) := defaultdict_read sid (last_msg_time s) in
  if PrimFloat.ltb (PrimFloat.sub now last) MIN_SECONDS_BETWEEN_MSGS then
    (mkState (users s) (message_history s) lmt, [])
  else
    let lmt' := <[sid := now]> lmt in
    match _get_user s sid with
    | None => (mkState (users s) (message_history s) lmt', [])
    | Some user =>
        let msg_text := Str.strip (Str.or_empty message) in
        if Str.truthy msg_text then
          let message_data :=
            mkPublic (username user) (avatar user) msg_text ts in
          (mkState (users s)
                   (deque_append MAX_HISTORY message_data (message_history s))
                   lmt',
           [ mkEmit Broadcast (new_message message_data) ])
        else (mkState (users s) (message_history s) lmt', [])
    end.

Definition on_update_username (sid : string) (pick : Pick)
    (new_name : option string) (s : State) : State * list Emit :=
  match _get_user s sid with
  | None => (s, [])
  | Some user =>
      let old_username := username user in
      let new_username := Str.strip (Str.or_empty new_name) in
      if negb (Str.truthy new_username) || bool_decide (new_username = old_username)
      then (s, [])
      else
        let url := _build_avatar pick new_username (Some (gender user)) in
        let us := Dict.set sid (mkUser new_username url (gender user)) (users s) in
        (mkState us (message_history s) (last_msg_time s),
         [ mkEmit Broadcast (username_updated old_username new_username url);
           mkEmit Broadcast (online_users_list (_online_users_payload us)) ])
  end.

Definition on_update_avatar_gender (sid : string) (pick : Pick)
    (g : option string) (s : State) : State * list Emit :=
  match _get_user s sid with
  | None => (s, [])
  | Some user =>
      match g with
      | Some g0 =>
          if bool_decide (g0 = "boy") || bool_decide (g0 = "girl") then
            let url := _build_avatar pick (username user) (Some g0) in
            let us := Dict.set sid (mkUser (username user) url g0) (users s) in
            (mkState us (message_history s) (last_msg_time s),
             [ mkEmit Broadcast (avatar_updated (username user) url);
               mkEmit Broadcast (online_users_list (_online_users_payload us)) ])
          else (s, [])
      | None => (s, [])
      end
  end.

(** [bool(data.get("isTyping"))] is the [isTyping] argument. *)
Definition on_typing (sid : string) (isTyping : bool) (s : State)
  : State * list Emit :=
  match _get_user s sid with
  | None => (s, [])
  | Some user =>
      (s, [ mkEmit (BroadcastOthers sid) (user_typing (username user) isTyping) ])
  end.

Definition on_private_message (sid : string) (ts : string)
    (to message : option string) (s : State) : State * list Emit :=
  match Dict.get sid (users s) with
  | None => (s, [])
  | Some sender =>
      let msg_text := Str.strip (Str.or_empty message) in
      match to with
      | None => (s, [])
      | Some target_username =>
          if negb (Str.truthy target_username) || negb (Str.truthy msg_text)
          then (s, [])
          else
            match find_by_name target_username (users s) with
            | None => (s, [])
            | Some target_sid =>
                if negb (Str.truthy target_sid) then (s, [])
                else
                  let message_data :=
                    mkPrivate (username sender) target_username (avatar sender)
                              msg_text ts in
                  (s, [ mkEmit (Room target_sid) (private_message message_data);
                        mkEmit (Room sid) (private_message message_data) ])
            end
      end
  end.

(** ** The event loop

    One [Request] per Socket.IO event the server receives, carrying the
    session id of the connection it arrives on and what the handler reads
    from the clock and the random generator while it runs. *)

Inductive Request :=
  | connect (sid : string) (n : N) (pick : Pick)
  | disconnect (sid : string)
  | send_message (sid : string) (now : float) (ts : string) (message : option string)
  | update_username (sid : string) (pick : Pick) (new_name : option string)
  | update_avatar_gender (sid : string) (pick : Pick) (g : option string)
  | typing (sid : string) (isTyping : bool)
  | send_private_message (sid : string) (ts : string) (to message : option string).

Definition sid_of (r : Request) : string :=
  match r with
  | connect sid _ _ | disconnect sid | send_message sid _ _ _
  | update_username sid _ _ | update_avatar_gender sid _ _
  | typing sid _ | send_private_message sid _ _ _ => sid
  end.

Definition handle (r : Request) (s : State) : State * list Emit :=
  match r with
  | connect sid n pick => on_connect sid n pick s
  | disconnect sid => on_disconnect sid s
  | send_message sid now ts message => on_send_message sid now ts message s
  | update_username sid pick new_name => on_update_username sid pick new_name s
  | update_avatar_gender sid pick g => on_update_avatar_gender sid pick g s
  | typing sid isTyping => on_typing sid isTyping s
  | send_private_message sid ts to message => on_private_message sid ts to message s
  end.

(** The server handles requests one after the other; [run] returns the
    final state and everything emitted on the way, in order. *)
Fixpoint run (rs : list Request) (s : State) : State * list Emit :=
  match rs with
  | [] => (s, [])
  | r :: rs' =>
      let '(s1, out1) := handle r s in
      let '(s2, out2) := run rs' s1 in
      (s2, out1 ++ out2)
  end.

Definition is_connect (r : Request) : bool :=
  match r with
  | connect _ _ _ => true
  | _ => false
  end.

Definition is_send_message (r : Request) : bool :=
  match r with
  | send_message _ _ _ _ => true
  | _ => false
  end.

(** The public messages among a list of emissions, in order. *)
Definition published (out : list Emit) : list PublicMessage :=
  omap (λ e, match payload e with new_message m => Some m | _ => None end) out.

(** The last [n] items of a list. *)
Definition last_n {A : Type} (n : nat) (l : list A) : list A :=
  drop (length l - n) l.

(** What the gateway guarantees of a request: a session id is never empty,
    and [random.randint(1000, 9999)] stays within its bounds. *)
Definition gateway_ok (r : Request) : Prop :=
  sid_of r ≠ "" ∧
  match r with
  | connect _ n _ => (1000 ≤ n ≤ 9999)%N
  | _ => True
  end.

(** What holds of every record the handlers store. *)
Definition wf_entry (e : string * User) : Prop :=
  e.1 ≠ "" ∧ username e.2 ≠ "" ∧
  (gender e.2 = "boy" ∨ gender e.2 = "girl") ∧
  avatar e.2 = avatar_url (gender e.2) (username e.2).

Definition wf_state (s : State) : Prop :=
  Forall wf_entry (users s) ∧ NoDup (Dict.keys (users s)) ∧
  length (message_history s) ≤ MAX_HISTORY.

(** The rate check of [on_send_message] as the handler evaluates it. *)
Definition throttled (now last : float) : bool :=
  PrimFloat.ltb (PrimFloat.sub now last) MIN_SECONDS_BETWEEN_MSGS.

(** The stored last-send time, [0.0] for an id without an entry. *)
Definition last_send (s : State) (sid : string) : float :=
  default 0%float (last_msg_time s !! sid).

(** ** Reading the handlers' effects *)

(** The requests whose handlers assign to or delete from [users]. *)
Definition writes_users (r : Request) : bool :=
  match r with
  | connect _ _ _ | disconnect _ | update_username _ _ _
  | update_avatar_gender _ _ _ => true
  | _ => false
  end.

(** Whom each kind of event is emitted to by the handler that runs for
    [sid], as the [emit] calls of the source give it. *)
Definition audience (sid : string) (p : Payload) (t : Target) : Prop :=
  match p with
  | set_username _ | message_history_ev _ => t = Room sid
  | user_typing _ _ => t = BroadcastOthers sid
  | private_message _ => ∃ k, t = Room k
  | user_joined _ _ | user_left _ | online_users_list _ | new_message _
  | username_updated _ _ _ | avatar_updated _ _ => t = Broadcast
  end.

(** A decimal digit, as a character. *)
Definition is_digit (c : Ascii.ascii) : bool :=
  let n := Ascii.N_of_ascii c in ((48 <=? n) && (n <=? 57))%N.

(** The texts [User_dddd] with four decimal digits. *)
Definition generated_name (name : string) : Prop :=
  ∃ d1 d2 d3 d4 : Ascii.ascii,
    name = "User_" +:+ String d1 (String d2 (String d3 (String d4 ""))) ∧
    is_digit d1 = true ∧ is_digit d2 = true ∧
    is_digit d3 = true ∧ is_digit d4 = true.

(** ** Accepted sends and gateway sessions *)

(** A reading of the wall clock: [time.time()] counts the seconds since
    1970, so it is at least 0.25 (and not a NaN). *)
Definition wall_clock (r : Request) : bool :=
  match r with
  | send_message _ now _ _ => PrimFloat.leb 0.25 now
  | _ => true
  end.

Definition clock_ok (rs : list Request) : bool := forallb wall_clock rs.

(** The discipline of the gateway: a session id is given to one connection
    only, and [send_message] arrives for a session that has connected.
    [opened] lists the ids that have connected so far. *)
Fixpoint session_ok (opened : list string) (rs : list Request) : bool :=
  match rs with
  | [] => true
  | connect sid _ _ :: rs' =>
      negb (bool_decide (sid ∈ opened)) && session_ok (sid :: opened) rs'
  | send_message sid _ _ _ :: rs' =>
      bool_decide (sid ∈ opened) && session_ok opened rs'
  | _ :: rs' => session_ok opened rs'
  end.

(** In the run of [rs] from the start, the request after [pre] is a public
    send of [sid] that the rate check of [on_send_message] accepts (lines
    66 to 69 of the source: the check passes and the time is recorded). *)
Definition accepted_at (rs pre post : list Request) (sid : string) : Prop :=
  ∃ now ts m,
    rs = pre ++ send_message sid now ts m :: post ∧
    throttled now (last_send (run pre initial).1 sid) = false.

(** ** Sample states and inputs *)

Definition user_a : User :=
  mkUser "User_1234" (avatar_url "boy" "User_1234") "boy".

Definition user_b : User :=
  mkUser "User_5678" (avatar_url "girl" "User_5678") "girl".

(** The state after [connect "a" 1234 boy]. *)
Definition one_user : State := mkState [("a", user_a)] [] ∅.

(** The state after [connect "a" 1234 boy] and [connect "b" 5678 girl]. *)
Definition two_users : State := mkState [("a", user_a); ("b", user_b)] [] ∅.

Definition t0 : string := "2024-01-01T00:00:00+00:00".
Definition t1 : string := "2024-01-01T00:00:01+00:00".

(** A clock reading of [i] seconds. *)
Definition seconds (i : nat) : float :=
  PrimFloat.of_uint63 (Uint63.of_Z (Z.of_nat i)).

(** [n] sends from "a", one second apart, the [i]-th with the body [i]. *)
Definition burst (n : nat) : list Request :=
  (λ i, send_message "a" (seconds i) t0 (Some (pretty i))) <$> seq 1 n.

(** * Properties *)

(** ** Floats *)

Lemma float_sub_zero (x : float) : PrimFloat.sub x 0%float = x.
Proof.
  apply Prim2SF_inj. rewrite sub_spec.
  change (Prim2SF 0%float) with (S754_zero false).
  destruct (Prim2SF x) as [[]|[]| |]; reflexivity.
Qed.

Lemma SFcompare_antisym (x y : spec_float) (c : comparison) :
  SFcompare x y = Some c → SFcompare y x = Some (CompOpp c).
Proof.
  destruct x as [sx|sx| |sx mx ex], y as [sy|sy| |sy my ey]; simpl;
    try discriminate;
    try (intros [= <-]; repeat match goal with b : bool |- _ => destruct b end;
         reflexivity).
  intros [= <-].
  destruct sx, sy; try reflexivity;
    rewrite (Z.compare_antisym ex ey); destruct (ex ?= ey)%Z; simpl;
    try reflexivity;
    rewrite (Pos.compare_cont_antisym mx my Eq); reflexivity.
Qed.

Lemma float_leb_not_ltb (x y : float) :
  PrimFloat.leb x y = true → PrimFloat.ltb y x = false.
Proof.
  rewrite leb_spec, ltb_spec. unfold SFleb, SFltb.
  destruct (SFcompare (Prim2SF x) (Prim2SF y)) as [c|] eqn:E; [|discriminate].
  rewrite (SFcompare_antisym _ _ _ E). by destruct c.
Qed.

(** ** Strings *)

Lemma truthy_true (s : string) : Str.truthy s = true ↔ s ≠ "".
Proof. destruct s; simpl; split; congruence. Qed.

Lemma truthy_false (s : string) : Str.truthy s = false ↔ s = "".
Proof. destruct s; simpl; split; congruence. Qed.

Lemma rstrip_empty (s : string) :
  Str.rstrip s = "" ↔ Str.all_space s = true.
Proof.
  induction s as [|c s IH]; simpl; [done|].
  destruct (Str.rstrip s) eqn:E.
  - destruct (Str.isspace c); simpl; [|split; discriminate].
    split; intros _; [by apply IH | done].
  - split; [discriminate|].
    intros [_ H]%andb_true_iff. apply IH in H. discriminate.
Qed.

Lemma all_space_lstrip (s : string) :
  Str.all_space (Str.lstrip s) = Str.all_space s.
Proof.
  induction s as [|c s IH]; simpl; [done|].
  destruct (Str.isspace c) eqn:E; simpl; [exact IH | by rewrite E].
Qed.

(** Trimming leaves nothing exactly when the text is empty or made of
    whitespace only. *)
Lemma strip_empty (s : string) :
  Str.strip s = "" ↔ Str.all_space s = true.
Proof. unfold Str.strip. by rewrite rstrip_empty, all_space_lstrip. Qed.

Example strip_blanks : Str.strip "   " = "".
Proof. reflexivity. Qed.

Example strip_both_ends : Str.strip "  hi there  " = "hi there".
Proof. reflexivity. Qed.

Example strip_tab_newline :
  Str.strip (String (Ascii.ascii_of_nat 9) ("ok" +:+ String (Ascii.ascii_of_nat 10) ""))
  = "ok".
Proof. reflexivity. Qed.

(** ** Dictionaries *)

Section dict_facts.
Context {V : Type}.
Implicit Types (d : list (string * V)) (k : string) (v : V).

Lemma get_set_eq k v d : Dict.get k (Dict.set k v d) = Some v.
Proof.
  induction d as [|[k' v'] d IH]; simpl.
  - by rewrite decide_True.
  - destruct (decide (k' = k)) as [->|Hne]; simpl.
    + by rewrite decide_True.
    + by rewrite decide_False.
Qed.

Lemma get_None_keys k d : Dict.get k d = None ↔ k ∉ Dict.keys d.
Proof.
  unfold Dict.keys. induction d as [|[k' v'] d IH]; simpl.
  - split; [intros _; apply not_elem_of_nil | done].
  - rewrite not_elem_of_cons. destruct (decide (k' = k)) as [->|Hne].
    + split; [discriminate | intros [? _]; done].
    + rewrite IH. split; [intros H; split; [congruence | done] | by intros [_ H]].
Qed.

Lemma get_Some_elem k v d : Dict.get k d = Some v → (k, v) ∈ d.
Proof.
  induction d as [|[k' v'] d IH]; simpl; [discriminate|].
  destruct (decide (k' = k)) as [->|Hne].
  - intros [= ->]. apply list_elem_of_here.
  - intros H. apply list_elem_of_further, IH, H.
Qed.

Lemma keys_set_present k v d :
  is_Some (Dict.get k d) → Dict.keys (Dict.set k v d) = Dict.keys d.
Proof.
  unfold Dict.keys. induction d as [|[k' v'] d IH]; csimpl.
  - by intros [? ?].
  - destruct (decide (k' = k)); csimpl; [done|]. intros H. by rewrite IH.
Qed.

Lemma keys_set_absent k v d :
  Dict.get k d = None → Dict.keys (Dict.set k v d) = Dict.keys d ++ [k].
Proof.
  unfold Dict.keys. induction d as [|[k' v'] d IH]; csimpl; [done|].
  destruct (decide (k' = k)); csimpl; [discriminate|]. intros H. by rewrite IH.
Qed.

Lemma pop_absent k d : Dict.get k d = None → Dict.pop k d = (None, d).
Proof.
  induction d as [|[k' v'] d IH]; simpl; [done|].
  destruct (decide (k' = k)); [discriminate|]. intros H. by rewrite IH.
Qed.

Lemma pop_sublist k d : sublist (Dict.pop k d).2 d.
Proof.
  induction d as [|[k' v'] d IH]; simpl; [done|].
  destruct (decide (k' = k)); simpl.
  - by apply sublist_cons.
  - destruct (Dict.pop k d) as [r d'']. simpl in *. by apply sublist_skip.
Qed.

Lemma set_Forall (P : string * V → Prop) k v d :
  Forall P d → P (k, v) → Forall P (Dict.set k v d).
Proof.
  intros Hd Hkv. induction Hd as [|[k' v'] d Hx Hd IH]; simpl.
  - by constructor.
  - destruct (decide (k' = k)) as [->|Hne]; by constructor.
Qed.

Lemma set_NoDup k v d : NoDup (Dict.keys d) → NoDup (Dict.keys (Dict.set k v d)).
Proof.
  intros Hd. destruct (Dict.get k d) as [v0|] eqn:E.
  - by rewrite keys_set_present.
  - rewrite keys_set_absent by done. apply NoDup_app. split; [done|].
    split; [|apply NoDup_singleton].
    intros x Hx ->%list_elem_of_singleton. by apply get_None_keys in E.
Qed.

End dict_facts.

Lemma find_by_name_elem (name sid : string) (us : list (string * User)) :
  find_by_name name us = Some sid →
  ∃ u, (sid, u) ∈ us ∧ username u = name.
Proof.
  induction us as [|[k u] us IH]; simpl; [discriminate|].
  destruct (decide (username u = name)) as [Hu|Hu].
  - intros [= ->]. exists u. split; [apply list_elem_of_here | done].
  - intros H. destruct (IH H) as (u' & Hin & Hn). exists u'.
    split; [by apply list_elem_of_further | done].
Qed.

Lemma find_by_name_None (name : string) (us : list (string * User)) :
  find_by_name name us = None ↔ ∀ sid u, (sid, u) ∈ us → username u ≠ name.
Proof.
  induction us as [|[k u] us IH]; simpl.
  - split; [|done]. intros _ sid u H. by apply elem_of_nil in H.
  - destruct (decide (username u = name)) as [Hu|Hu].
    + split; [discriminate|]. intros H. by destruct (H k u (list_elem_of_here _ _)).
    + rewrite IH. split.
      * intros H sid u' [[= -> ->]|Hin]%elem_of_cons; [done | by eapply H].
      * intros H sid u' Hin. eapply H. by apply list_elem_of_further.
Qed.

(** ** The bounded history *)

Section deque_facts.
Context {A : Type}.
Implicit Types (d l : list A) (x : A) (n : nat).

Lemma deque_append_room n x d : length d < n → deque_append n x d = d ++ [x].
Proof.
  intros H. unfold deque_append. rewrite decide_False; [done|].
  rewrite length_app. simpl. lia.
Qed.

Lemma deque_append_full n x d :
  0 < n → length d = n → deque_append n x d = tail d ++ [x].
Proof.
  intros Hn H. unfold deque_append. rewrite decide_True.
  - destruct d; simpl in *; [lia | done].
  - rewrite length_app. simpl. lia.
Qed.

Lemma deque_append_last_n n x d :
  length d ≤ n → deque_append n x d = last_n n (d ++ [x]).
Proof.
  intros H. unfold deque_append, last_n. rewrite length_app. simpl.
  destruct (decide (n < length d + 1)) as [Hlt|Hge].
  - replace (length d + 1 - n) with 1 by lia. by destruct d.
  - replace (length d + 1 - n) with 0 by lia. done.
Qed.

Lemma length_last_n n l : length (last_n n l) = length l `min` n.
Proof. unfold last_n. rewrite length_drop. lia. Qed.

Lemma last_n_app n l l' : last_n n (last_n n l ++ l') = last_n n (l ++ l').
Proof.
  unfold last_n. rewrite !length_app, length_drop.
  destruct (decide (length l ≤ n)) as [Hle|Hgt].
  - replace (length l - n) with 0 by lia. rewrite Nat.sub_0_r. done.
  - rewrite <- (drop_app_le l l' (length l - n)) by lia.
    rewrite drop_drop. f_equal. lia.
Qed.

End deque_facts.

(** ** The handlers, case by case *)

Lemma state_eta (s : State) :
  mkState (users s) (message_history s) (last_msg_time s) = s.
Proof. by destruct s. Qed.

Lemma build_avatar_given (pick : Pick) (name g : string) :
  g ≠ "" → _build_avatar pick name (Some g) = avatar_url g name.
Proof. intros H. unfold _build_avatar. by destruct g. Qed.

Lemma build_avatar_pick (pick : Pick) (name : string) :
  _build_avatar pick name (Some (pick_str pick)) = avatar_url (pick_str pick) name.
Proof. by destruct pick. Qed.

(** A send that the rate check stops: nothing but the limiter's entry for
    [sid] is touched, and that entry holds what was read. *)
Lemma on_send_message_throttled sid now ts message s :
  throttled now (last_send s sid) = true →
  on_send_message sid now ts message s =
    (mkState (users s) (message_history s)
             (<[sid := last_send s sid]> (last_msg_time s)), []).
Proof.
  unfold throttled, last_send, on_send_message, defaultdict_read.
  destruct (last_msg_time s !! sid) as [t|] eqn:E; simpl; intros ->.
  - by rewrite insert_id.
  - done.
Qed.

(** A send that passes the rate check: [now] is stored before the sender is
    looked up and before the body is trimmed. *)
Lemma on_send_message_passed sid now ts message s :
  throttled now (last_send s sid) = false →
  on_send_message sid now ts message s =
    let lmt := <[sid := now]> (last_msg_time s) in
    match _get_user s sid with
    | None => (mkState (users s) (message_history s) lmt, [])
    | Some user =>
        let msg_text := Str.strip (Str.or_empty message) in
        if Str.truthy msg_text then
          let message_data := mkPublic (username user) (avatar user) msg_text ts in
          (mkState (users s)
                   (deque_append MAX_HISTORY message_data (message_history s)) lmt,
           [ mkEmit Broadcast (new_message message_data) ])
        else (mkState (users s) (message_history s) lmt, [])
    end.
Proof.
  unfold throttled, last_send, on_send_message, defaultdict_read.
  destruct (last_msg_time s !! sid) as [t|] eqn:E; simpl; intros ->.
  - done.
  - by rewrite insert_insert_eq.
Qed.

Lemma on_disconnect_unknown sid s :
  _get_user s sid = None → on_disconnect sid s = (s, []).
Proof.
  unfold _get_user, on_disconnect. intros H.
  rewrite (pop_absent _ _ H). by rewrite state_eta.
Qed.

(** ** C1 *)

(** C1, as the code has it: [on_connect] makes no check for a
    connection_id that is already in [users].  There is no
    DuplicateConnectionError: the handler stores the freshly generated record
    under the id, in the position the id already had, leaves the history and
    the limiter alone, and emits the same four events as for a new id. *)
Theorem on_connect_present_overwrites
    (s : State) (sid : string) (n : N) (pick : Pick) (old : User) :
  _get_user s sid = Some old →
  let name := "User_" +:+ pretty n in
  let url := avatar_url (pick_str pick) name in
  let s' := (on_connect sid n pick s).1 in
  _get_user s' sid = Some (mkUser name url (pick_str pick)) ∧
  Dict.keys (users s') = Dict.keys (users s) ∧
  message_history s' = message_history s ∧
  last_msg_time s' = last_msg_time s ∧
  (on_connect sid n pick s).2 =
    [ mkEmit (Room sid) (set_username name);
      mkEmit (Room sid) (message_history_ev (message_history s));
      mkEmit Broadcast (user_joined name url);
      mkEmit Broadcast (online_users_list (_online_users_payload (users s'))) ].
Proof.
  intros Hold. unfold on_connect, _get_user in *. simpl.
  rewrite build_avatar_pick. repeat split.
  - apply get_set_eq.
  - apply keys_set_present. by rewrite Hold.
Qed.

Lemma on_connect_present_overwrites_witness :
  _get_user one_user "a" = Some user_a ∧
  _get_user (on_connect "a" 5678 girl one_user).1 "a" = Some user_b.
Proof.
  split; [reflexivity|].
  exact (proj1 (on_connect_present_overwrites one_user "a" 5678 girl user_a eq_refl)).
Defined.

(** C1, refuted as stated: connection "a" is present with the record
    [user_a]; a second [on_connect] for "a" returns normally, the record of
    "a" is now [user_b], and the join events are emitted. *)
Lemma on_connect_duplicate_replaces :
  _get_user one_user "a" = Some user_a ∧
  on_connect "a" 5678 girl one_user =
    (mkState [("a", user_b)] [] ∅,
     [ mkEmit (Room "a") (set_username "User_5678");
       mkEmit (Room "a") (message_history_ev []);
       mkEmit Broadcast (user_joined "User_5678" (avatar user_b));
       mkEmit Broadcast (online_users_list [mkPresence "User_5678" (avatar user_b)]) ]) ∧
  user_b ≠ user_a.
Proof. split; [|split]; [reflexivity | reflexivity | discriminate]. Qed.

(** ** C2 *)

(** C2, as the code has it: a handler other than [on_connect] that runs for
    a connection_id absent from [users] emits nothing and leaves [users] and
    [message_history] as they were.  [last_msg_time] is left alone by every
    such handler but [on_send_message], which runs its rate check before it
    looks the sender up: it leaves an entry under that connection_id and
    touches no other entry. *)
Theorem unknown_sid_handlers_silent (r : Request) (s : State) :
  is_connect r = false →
  _get_user s (sid_of r) = None →
  (handle r s).2 = [] ∧
  users (handle r s).1 = users s ∧
  message_history (handle r s).1 = message_history s ∧
  (is_send_message r = false → (handle r s).1 = s) ∧
  (is_send_message r = true →
     is_Some (last_msg_time (handle r s).1 !! sid_of r)) ∧
  (∀ sid', sid' ≠ sid_of r →
     last_msg_time (handle r s).1 !! sid' = last_msg_time s !! sid').
Proof.
  intros Hc Hu.
  destruct r as [sid n p|sid|sid now ts m|sid p nm|sid p g|sid b|sid ts to m];
    simpl in *; try discriminate.
  - rewrite on_disconnect_unknown by done. by repeat split.
  - destruct (throttled now (last_send s sid)) eqn:Ht.
    + rewrite on_send_message_throttled by done. simpl.
      repeat split; try done.
      * intros _. rewrite lookup_insert_eq. by eexists.
      * intros sid' Hne. by rewrite lookup_insert_ne.
    + rewrite on_send_message_passed by done. simpl. rewrite Hu. simpl.
      repeat split; try done.
      * intros _. rewrite lookup_insert_eq. by eexists.
      * intros sid' Hne. by rewrite lookup_insert_ne.
  - unfold on_update_username. rewrite Hu. by repeat split.
  - unfold on_update_avatar_gender. rewrite Hu. by repeat split.
  - unfold on_typing. rewrite Hu. by repeat split.
  - unfold on_private_message. unfold _get_user in Hu. rewrite Hu. by repeat split.
Qed.

Lemma unknown_sid_handlers_silent_witness :
  (handle (send_message "ghost" 1000 t0 (Some "hi")) initial).2 = [] ∧
  (handle (typing "ghost" true) initial).1 = initial.
Proof.
  split.
  - exact (proj1 (unknown_sid_handlers_silent
                    (send_message "ghost" 1000 t0 (Some "hi")) initial
                    eq_refl eq_refl)).
  - exact (proj1 (proj2 (proj2 (proj2 (unknown_sid_handlers_silent
                    (typing "ghost" true) initial eq_refl eq_refl))))
             eq_refl).
Defined.

(** C2, refuted as stated: "ghost" is not in [users], yet its
    [send_message] changes the shared state, storing the time of the attempt
    in [last_msg_time]. *)
Lemma send_message_unknown_sid_mutates :
  _get_user initial "ghost" = None ∧
  last_msg_time initial !! "ghost" = None ∧
  last_msg_time (on_send_message "ghost" 1000 t0 (Some "hi") initial).1 !! "ghost"
    = Some 1000%float ∧
  (on_send_message "ghost" 1000 t0 (Some "hi") initial).1 ≠ initial.
Proof.
  split; [reflexivity|]. split; [reflexivity|]. split; [reflexivity|].
  intros H. apply (f_equal (λ s, last_msg_time s !! "ghost")) in H.
  vm_compute in H. discriminate.
Qed.

(** ** C3 *)

(** Every handler leaves the limiter's entries in place, and only
    [on_send_message] adds one, under the id it runs for. *)
Lemma handle_limiter_entry (r : Request) (s : State) (sid : string) :
  is_Some (last_msg_time (handle r s).1 !! sid) ↔
  is_Some (last_msg_time s !! sid) ∨ (is_send_message r = true ∧ sid_of r = sid).
Proof.
  assert (Hno : ∀ P : Prop, P ↔ P ∨ (false = true ∧ sid_of r = sid)).
  { intros P. split; [by left | by intros [?|[? _]]]. }
  destruct r as [k n p|k|k now ts m|k p nm|k p g|k b|k ts to m]; simpl.
  - apply Hno.
  - unfold on_disconnect. destruct (Dict.pop k (users s)) as [[u|] us]; apply Hno.
  - assert (Hins : ∀ t, is_Some (<[k := t]> (last_msg_time s) !! sid) ↔
                        is_Some (last_msg_time s !! sid) ∨ (true = true ∧ k = sid)).
    { intros t. rewrite lookup_insert. destruct (decide (k = sid)) as [->|Hne].
      - split; [by right | by eexists].
      - split; [by left | by intros [?|[_ ?]]]. }
    destruct (throttled now (last_send s k)) eqn:Ht.
    + rewrite on_send_message_throttled by done. apply Hins.
    + rewrite on_send_message_passed by done. simpl.
      destruct (_get_user s k) as [u|]; [|apply Hins].
      destruct (Str.truthy _); apply Hins.
  - unfold on_update_username. destruct (_get_user s k) as [u|]; [|apply Hno].
    destruct (_ || _); apply Hno.
  - unfold on_update_avatar_gender. destruct (_get_user s k) as [u|]; [|apply Hno].
    destruct g as [g|]; [|apply Hno]. destruct (_ || _); apply Hno.
  - unfold on_typing. destruct (_get_user s k) as [u|]; apply Hno.
  - unfold on_private_message. destruct (Dict.get k (users s)) as [u|]; [|apply Hno].
    destruct to as [b0|]; [|apply Hno]. destruct (_ || _); [apply Hno|].
    destruct (find_by_name _ _) as [t|]; [|apply Hno].
    destruct (negb _); apply Hno.
Qed.

Lemma run_cons_state (r : Request) (rs : list Request) (s : State) :
  (run (r :: rs) s).1 = (run rs (handle r s).1).1.
Proof. simpl. destruct (handle r s) as [s1 o1]. simpl. by destruct (run rs s1). Qed.

Lemma run_cons_out (r : Request) (rs : list Request) (s : State) :
  (run (r :: rs) s).2 = (handle r s).2 ++ (run rs (handle r s).1).2.
Proof. simpl. destruct (handle r s) as [s1 o1]. simpl. by destruct (run rs s1). Qed.

Lemma run_limiter_entry (rs : list Request) (s : State) (sid : string) :
  is_Some (last_msg_time (run rs s).1 !! sid) ↔
  is_Some (last_msg_time s !! sid) ∨
  ∃ r, r ∈ rs ∧ is_send_message r = true ∧ sid_of r = sid.
Proof.
  revert s. induction rs as [|r rs IH]; intros s.
  - simpl. split; [by left|].
    intros [?|(r & Hin & _)]; [done|]. by apply elem_of_nil in Hin.
  - rewrite run_cons_state, IH, handle_limiter_entry. split.
    + intros [[?|[? ?]]|(r' & Hin & ? & ?)].
      * by left.
      * right. exists r. split; [apply list_elem_of_here | done].
      * right. exists r'. split; [by apply list_elem_of_further | done].
    + intros [?|(r' & [->|Hin]%elem_of_cons & ? & ?)].
      * by left; left.
      * by left; right.
      * right. by exists r'.
Qed.

(** X19: after any sequence of requests from the start, [last_msg_time]
    has an entry for a connection_id exactly when [on_send_message] has run
    for that id at least once; no handler removes an entry,
    [on_disconnect] included. *)
Theorem limiter_entry_iff_send_attempted (rs : list Request) (sid : string) :
  is_Some (last_msg_time (run rs initial).1 !! sid) ↔
  ∃ r, r ∈ rs ∧ is_send_message r = true ∧ sid_of r = sid.
Proof.
  rewrite run_limiter_entry. simpl. rewrite lookup_empty. split.
  - intros [[? ?]|?]; [discriminate | done].
  - by right.
Qed.

(** A send that passes the rate check leaves its entry also when nothing is
    published: "a" connects and sends a body of blanks. *)
Lemma limiter_entry_without_accepted_message :
  let rs := [connect "a" 1234 boy; send_message "a" 1000 t0 (Some "   ")] in
  published (run rs initial).2 = [] ∧
  message_history (run rs initial).1 = [] ∧
  last_msg_time (run rs initial).1 !! "a" = Some 1000%float.
Proof. repeat split; reflexivity. Qed.

(** The same for an id that never connected: its send attempt publishes
    nothing and still leaves an entry. *)
Example limiter_entry_for_unknown_sid :
  let rs := [send_message "ghost" 1000 t0 (Some "hi")] in
  users (run rs initial).1 = [] ∧
  published (run rs initial).2 = [] ∧
  last_msg_time (run rs initial).1 !! "ghost" = Some 1000%float.
Proof. repeat split; reflexivity. Qed.

(** An entry outlives the connection: [on_disconnect] does not remove it. *)
Example limiter_entry_survives_disconnect :
  let rs := [connect "a" 1234 boy; send_message "a" 1000 t0 (Some "hi");
             disconnect "a"] in
  users (run rs initial).1 = [] ∧
  last_msg_time (run rs initial).1 !! "a" = Some 1000%float.
Proof. repeat split; reflexivity. Qed.

(** The first send of [sid] in a sequence that has one. *)
Lemma first_send_split (rs : list Request) (sid : string) :
  (∃ r, r ∈ rs ∧ is_send_message r = true ∧ sid_of r = sid) →
  ∃ pre now ts m post,
    rs = pre ++ send_message sid now ts m :: post ∧
    ∀ r, r ∈ pre → ¬ (is_send_message r = true ∧ sid_of r = sid).
Proof.
  induction rs as [|r0 rs IH]; intros (r & Hin & Hs & Hk).
  - by apply elem_of_nil in Hin.
  - destruct (decide (is_send_message r0 = true ∧ sid_of r0 = sid)) as [[H0 H1]|Hno].
    + destruct r0 as [| |k now ts m| | | |]; try discriminate. simpl in H1. subst k.
      exists [], now, ts, m, rs. split; [done|]. intros r' H. by apply elem_of_nil in H.
    + apply elem_of_cons in Hin as [->|Hin]; [by destruct Hno|].
      destruct IH as (pre & now & ts & m & post & -> & Hpre); [by exists r|].
      exists (r0 :: pre), now, ts, m, post. split; [done|].
      intros r' [->|H]%elem_of_cons; [done | by apply Hpre].
Qed.

Lemma clock_ok_split (pre post : list Request) sid now ts m :
  clock_ok (pre ++ send_message sid now ts m :: post) = true →
  PrimFloat.leb 0.25 now = true.
Proof.
  unfold clock_ok. rewrite forallb_app. simpl.
  intros [_ [H _]%andb_true_iff]%andb_true_iff. exact H.
Qed.

(** Once a session id has connected, no later [connect] carries it. *)
Lemma session_ok_no_reconnect (opened : list string) (rs : list Request) sid :
  session_ok opened rs = true → sid ∈ opened →
  ∀ n p, connect sid n p ∉ rs.
Proof.
  revert opened. induction rs as [|r rs IH]; intros opened Hok Hin n p.
  - apply not_elem_of_nil.
  - apply not_elem_of_cons.
    destruct r as [k n0 p0|k|k now ts m|k p0 nm|k p0 g|k b|k ts to m]; simpl in Hok;
      try (split; [discriminate | by eapply IH]).
    + apply andb_true_iff in Hok as [Hk Hok].
      apply negb_true_iff, bool_decide_eq_false in Hk. split.
      * intros [= <- _ _]. done.
      * eapply IH; [exact Hok | by apply list_elem_of_further].
    + apply andb_true_iff in Hok as [_ Hok]. split; [discriminate | by eapply IH].
Qed.

(** A send arrives for a session that has connected, and that session id
    is not connected again afterwards. *)
Lemma session_ok_split (opened : list string) (pre post : list Request) sid now ts m :
  session_ok opened (pre ++ send_message sid now ts m :: post) = true →
  (sid ∈ opened ∨ ∃ n p, connect sid n p ∈ pre) ∧
  ∀ n p, connect sid n p ∉ post.
Proof.
  revert opened. induction pre as [|r pre IH]; intros opened Hok.
  - simpl in Hok. apply andb_true_iff in Hok as [Hk Hok].
    apply bool_decide_eq_true in Hk. split; [by left|].
    by eapply session_ok_no_reconnect.
  - assert (Hstep : ∀ opened',
              session_ok opened' (pre ++ send_message sid now ts m :: post) = true →
              (sid ∈ opened' → sid ∈ opened ∨ ∃ n p, connect sid n p ∈ r :: pre) →
              (sid ∈ opened ∨ ∃ n p, connect sid n p ∈ r :: pre) ∧
              ∀ n p, connect sid n p ∉ post).
    { intros opened' Hok' Hop. destruct (IH opened' Hok') as [[H|(n & p & H)] Hpost].
      - split; [by apply Hop | done].
      - split; [|done]. right. exists n, p. by apply list_elem_of_further. }
    destruct r as [k n0 p0|k|k now0 ts0 m0|k p0 nm|k p0 g|k b|k ts0 to m0];
      simpl in Hok; try (apply (Hstep opened); [done | by left]).
    + apply andb_true_iff in Hok as [_ Hok]. apply (Hstep (k :: opened) Hok).
      intros [->|H]%elem_of_cons; [|by left].
      right. exists n0, p0. apply list_elem_of_here.
    + apply andb_true_iff in Hok as [_ Hok]. apply (Hstep opened); [done | by left].
Qed.

(** C3: with the wall clock as [time.time()] gives it, [last_msg_time] has
    an entry for a connection_id exactly when a public send of that id has
    been accepted by the rate check; an id without an accepted send has no
    entry and is read as 0.  Where the requests follow the gateway's session
    discipline, that accepted send came after the id connected, and the id
    did not connect again after it. *)
Theorem limiter_entry_only_after_accepted_send (rs : list Request) (sid : string) :
  clock_ok rs = true →
  (is_Some (last_msg_time (run rs initial).1 !! sid) ↔
   ∃ pre post, accepted_at rs pre post sid) ∧
  (last_msg_time (run rs initial).1 !! sid = None →
   last_send (run rs initial).1 sid = 0%float) ∧
  (session_ok [] rs = true →
   is_Some (last_msg_time (run rs initial).1 !! sid) →
   ∃ pre post,
     accepted_at rs pre post sid ∧
     (∃ n p, connect sid n p ∈ pre) ∧
     ∀ n p, connect sid n p ∉ post).
Proof.
  intros Hclock.
  assert (Hfirst : is_Some (last_msg_time (run rs initial).1 !! sid) →
            ∃ pre now ts m post,
              rs = pre ++ send_message sid now ts m :: post ∧
              throttled now (last_send (run pre initial).1 sid) = false).
  { intros Hentry.
    assert (Hsend : ∃ r, r ∈ rs ∧ is_send_message r = true ∧ sid_of r = sid).
    { apply run_limiter_entry in Hentry as [[? H]|H]; [|done].
      simpl in H. by rewrite lookup_empty in H. }
    destruct (first_send_split rs sid Hsend) as (pre & now & ts & m & post & Hrs & Hpre).
    exists pre, now, ts, m, post. split; [done|].
    assert (Hnone : last_msg_time (run pre initial).1 !! sid = None).
    { apply eq_None_not_Some. intros [[? H]|(r & Hin & Hr)]%run_limiter_entry.
      - simpl in H. by rewrite lookup_empty in H.
      - by apply (Hpre r Hin). }
    unfold last_send. rewrite Hnone. simpl.
    unfold throttled. rewrite float_sub_zero. apply float_leb_not_ltb.
    rewrite Hrs in Hclock. by eapply clock_ok_split. }
  split; [split|split].
  - intros H. destruct (Hfirst H) as (pre & now & ts & m & post & Hrs & Hacc).
    exists pre, post, now, ts, m. by split.
  - intros (pre & post & now & ts & m & Hrs & _).
    apply run_limiter_entry. right. exists (send_message sid now ts m).
    split; [|done]. rewrite Hrs. apply elem_of_app. right. apply list_elem_of_here.
  - intros H. unfold last_send. by rewrite H.
  - intros Hsess H. destruct (Hfirst H) as (pre & now & ts & m & post & Hrs & Hacc).
    exists pre, post. split; [by exists now, ts, m|].
    rewrite Hrs in Hsess.
    destruct (session_ok_split [] pre post sid now ts m Hsess) as [[Hin|Hc] Hpost].
    + by apply elem_of_nil in Hin.
    + by split.
Qed.

Lemma limiter_entry_only_after_accepted_send_witness :
  ∃ pre post,
    accepted_at [connect "a" 1234 boy; send_message "a" 1000 t0 (Some "hi");
                 send_message "a" 1000.125 t1 (Some "again")] pre post "a" ∧
    (∃ n p, connect "a" n p ∈ pre) ∧
    ∀ n p, connect "a" n p ∉ post.
Proof.
  exact (proj2 (proj2 (limiter_entry_only_after_accepted_send
           [connect "a" 1234 boy; send_message "a" 1000 t0 (Some "hi");
            send_message "a" 1000.125 t1 (Some "again")] "a" eq_refl))
           eq_refl (mk_is_Some _ _ eq_refl)).
Defined.

(** ** C4 *)

(** A handler either leaves the history alone and publishes nothing, or
    appends to the history the one message it publishes. *)
Lemma handle_history (r : Request) (s : State) :
  (message_history (handle r s).1 = message_history s ∧
   published (handle r s).2 = []) ∨
  (∃ m, message_history (handle r s).1
          = deque_append MAX_HISTORY m (message_history s) ∧
        published (handle r s).2 = [m]).
Proof.
  destruct r as [k n p|k|k now ts m|k p nm|k p g|k b|k ts to m]; simpl.
  - by left.
  - left. unfold on_disconnect. by destruct (Dict.pop k (users s)) as [[u|] us].
  - destruct (throttled now (last_send s k)) eqn:Ht.
    + left. by rewrite on_send_message_throttled.
    + rewrite on_send_message_passed by done. simpl.
      destruct (_get_user s k) as [u|]; [|by left].
      destruct (Str.truthy _); [|by left].
      right. by eexists.
  - left. unfold on_update_username. destruct (_get_user s k) as [u|]; [|done].
    by destruct (_ || _).
  - left. unfold on_update_avatar_gender. destruct (_get_user s k) as [u|]; [|done].
    destruct g as [g|]; [|done]. by destruct (_ || _).
  - left. unfold on_typing. by destruct (_get_user s k) as [u|].
  - left. unfold on_private_message. destruct (Dict.get k (users s)) as [u|]; [|done].
    destruct to as [b0|]; [|done]. destruct (_ || _); [done|].
    destruct (find_by_name _ _) as [t|]; [|done].
    by destruct (negb _).
Qed.

Lemma last_n_all {A : Type} (n : nat) (l : list A) :
  length l ≤ n → last_n n l = l.
Proof. intros H. unfold last_n. by replace (length l - n) with 0 by lia. Qed.

Lemma handle_history_last_n (r : Request) (s : State) :
  length (message_history s) ≤ MAX_HISTORY →
  message_history (handle r s).1
    = last_n MAX_HISTORY (message_history s ++ published (handle r s).2).
Proof.
  intros Hlen. destruct (handle_history r s) as [[-> ->]|(m & -> & ->)].
  - rewrite app_nil_r. by rewrite last_n_all.
  - by apply deque_append_last_n.
Qed.

Lemma published_app (o1 o2 : list Emit) :
  published (o1 ++ o2) = published o1 ++ published o2.
Proof. apply omap_app. Qed.

Lemma run_history (rs : list Request) (s : State) :
  length (message_history s) ≤ MAX_HISTORY →
  message_history (run rs s).1
    = last_n MAX_HISTORY (message_history s ++ published (run rs s).2).
Proof.
  revert s. induction rs as [|r rs IH]; intros s Hlen.
  - simpl. rewrite app_nil_r. by rewrite last_n_all.
  - rewrite run_cons_state, run_cons_out, published_app.
    rewrite IH.
    + rewrite handle_history_last_n by done.
      by rewrite last_n_app, app_assoc.
    + rewrite handle_history_last_n by done. rewrite length_last_n. lia.
Qed.

(** C4: after any sequence of requests from the start the history holds at
    most 150 messages, and it is the last 150 of the messages published so
    far, in the order they were published (oldest first).  A send that is
    published while the history is full drops its oldest message and puts
    the new one last, the others keeping their order; while there is room
    it only adds the new one at the end. *)
Theorem history_bounded_append_order (rs : list Request) :
  let s := (run rs initial).1 in
  length (message_history s) ≤ 150 ∧
  message_history s = last_n 150 (published (run rs initial).2) ∧
  ∀ r m,
    published (handle r s).2 = [m] →
    (length (message_history s) < 150 →
       message_history (handle r s).1 = message_history s ++ [m]) ∧
    (length (message_history s) = 150 →
       message_history (handle r s).1 = tail (message_history s) ++ [m]).
Proof.
  assert (H0 : length (message_history initial) ≤ MAX_HISTORY).
  { simpl. unfold MAX_HISTORY. lia. }
  pose proof (run_history rs initial H0) as H. simpl in H.
  change 150 with MAX_HISTORY.
  assert (Hlen : length (message_history (run rs initial).1) ≤ MAX_HISTORY).
  { rewrite H. rewrite length_last_n. lia. }
  simpl. split; [exact Hlen|]. split; [exact H|].
  intros r m Hm.
  destruct (handle_history r (run rs initial).1) as [[_ Hp]|(m' & -> & Hp)];
    rewrite Hp in Hm; [discriminate|]. injection Hm as ->.
  split; intros Hl.
  - by apply deque_append_room.
  - apply deque_append_full; [unfold MAX_HISTORY; lia | done].
Qed.

(** The 151st message pushes the first one out: after 151 sends the history
    holds the bodies 2 to 151, oldest first. *)
Example history_after_151_sends :
  let s := (run (connect "a" 1234 boy :: burst 151) initial).1 in
  length (message_history s) = 150 ∧
  pub_message <$> message_history s = pretty <$> seq 2 150.
Proof. vm_compute. split; reflexivity. Qed.

(** ** C5 *)

(** The rate check passes when at least 0.25 seconds lie between the stored
    time and [now], and stops the send when fewer do. *)
Lemma throttled_false (now last : float) :
  PrimFloat.leb 0.25 (PrimFloat.sub now last) = true → throttled now last = false.
Proof. apply float_leb_not_ltb. Qed.

(** With the default of an id without entry, any clock reading of at least
    0.25 passes the rate check. *)
Lemma throttled_default (now : float) :
  PrimFloat.leb 0.25 now = true → throttled now 0 = false.
Proof. intros H. apply throttled_false. by rewrite float_sub_zero. Qed.

Lemma last_send_insert (s : State) (sid : string) (t : float) us h :
  last_send (mkState us h (<[sid := t]> (last_msg_time s))) sid = t.
Proof. unfold last_send. simpl. by rewrite lookup_insert_eq. Qed.

(** A connected sender with a non-empty body is published exactly when the
    rate check passes. *)
Lemma on_send_message_connected sid now ts message s u :
  _get_user s sid = Some u →
  Str.strip (Str.or_empty message) ≠ "" →
  on_send_message sid now ts message s =
    if throttled now (last_send s sid) then
      (mkState (users s) (message_history s)
               (<[sid := last_send s sid]> (last_msg_time s)), [])
    else
      let m := mkPublic (username u) (avatar u)
                        (Str.strip (Str.or_empty message)) ts in
      (mkState (users s) (deque_append MAX_HISTORY m (message_history s))
               (<[sid := now]> (last_msg_time s)),
       [ mkEmit Broadcast (new_message m) ]).
Proof.
  intros Hu Hm. destruct (throttled now (last_send s sid)) eqn:Ht.
  - by apply on_send_message_throttled.
  - rewrite on_send_message_passed by done. simpl. rewrite Hu.
    apply truthy_true in Hm. by rewrite Hm.
Qed.

(** C5: a connected sender submits two public messages whose bodies are not
    empty after trimming, at clock readings [now1] and [now2].  The first
    send after connecting (no stored time, default 0) is published, for any
    clock reading of at least 0.25 seconds past the epoch.  Whenever the
    first is published, the second produces no [new_message] if
    [now2 - now1 < 0.25], and is published too if [now2 - now1 >= 0.25]. *)
Theorem throttle_two_sends
    (s : State) (sid : string) (u : User)
    (now1 now2 : float) (ts1 ts2 : string) (m1 m2 : option string) :
  _get_user s sid = Some u →
  Str.strip (Str.or_empty m1) ≠ "" →
  Str.strip (Str.or_empty m2) ≠ "" →
  let first := on_send_message sid now1 ts1 m1 s in
  let second := on_send_message sid now2 ts2 m2 first.1 in
  let msg1 := mkPublic (username u) (avatar u) (Str.strip (Str.or_empty m1)) ts1 in
  let msg2 := mkPublic (username u) (avatar u) (Str.strip (Str.or_empty m2)) ts2 in
  (last_msg_time s !! sid = None →
   PrimFloat.leb 0.25 now1 = true →
   first.2 = [ mkEmit Broadcast (new_message msg1) ]) ∧
  (first.2 = [ mkEmit Broadcast (new_message msg1) ] →
   (PrimFloat.ltb (PrimFloat.sub now2 now1) 0.25 = true → second.2 = []) ∧
   (PrimFloat.leb 0.25 (PrimFloat.sub now2 now1) = true →
    second.2 = [ mkEmit Broadcast (new_message msg2) ])).
Proof.
  intros Hu Hm1 Hm2. cbv zeta.
  assert (Hu' : ∀ h l, _get_user (mkState (users s) h l) sid = Some u)
    by (intros; exact Hu).
  rewrite (on_send_message_connected sid now1 ts1 m1 s u Hu Hm1). split.
  - intros Hnone Hclock.
    replace (last_send s sid) with 0%float by (unfold last_send; by rewrite Hnone).
    by rewrite throttled_default.
  - destruct (throttled now1 (last_send s sid)) eqn:Ht; cbn [fst snd];
      [discriminate|].
    intros _.
    rewrite (on_send_message_connected sid now2 ts2 m2 _ u (Hu' _ _) Hm2).
    rewrite last_send_insert. split; intros H.
    + unfold throttled, MIN_SECONDS_BETWEEN_MSGS. by rewrite H.
    + by rewrite throttled_false.
Qed.

Lemma throttle_two_sends_witness :
  (on_send_message "a" 1000 t0 (Some "hi") one_user).2
    = [ mkEmit Broadcast
          (new_message (mkPublic "User_1234" (avatar user_a) "hi" t0)) ] ∧
  (on_send_message "a" 1000.125 t1 (Some " again ")
     (on_send_message "a" 1000 t0 (Some "hi") one_user).1).2 = [] ∧
  (on_send_message "a" 1000.25 t1 (Some " again ")
     (on_send_message "a" 1000 t0 (Some "hi") one_user).1).2
    = [ mkEmit Broadcast
          (new_message (mkPublic "User_1234" (avatar user_a) "again" t1)) ].
Proof.
  assert (Hm1 : Str.strip (Str.or_empty (Some "hi")) ≠ "") by discriminate.
  assert (Hm2 : Str.strip (Str.or_empty (Some " again ")) ≠ "") by discriminate.
  pose proof (throttle_two_sends one_user "a" user_a 1000 1000.125 t0 t1
                (Some "hi") (Some " again ") eq_refl Hm1 Hm2) as [H1 H2].
  pose proof (throttle_two_sends one_user "a" user_a 1000 1000.25 t0 t1
                (Some "hi") (Some " again ") eq_refl Hm1 Hm2) as [_ H3].
  split; [exact (H1 eq_refl eq_refl)|]. split.
  - exact (proj1 (H2 (H1 eq_refl eq_refl)) eq_refl).
  - exact (proj2 (H3 (H1 eq_refl eq_refl)) eq_refl).
Defined.

(** ** C10 *)

(** C10: when the rate check of [on_send_message] passes (at least 0.25
    seconds between the stored time and [now1]), [now1] becomes the stored
    time of that connection_id, also when the attempt then publishes nothing
    because the sender is unknown or the body is blank.  So a connected
    sender whose blank message passes the check and who sends a non-empty
    message less than 0.25 seconds later has that message dropped: no
    [new_message], nothing added to the history. *)
Theorem rate_stamp_precedes_validation
    (s : State) (sid : string)
    (now1 now2 : float) (ts1 ts2 : string) (m1 m2 : option string) :
  PrimFloat.leb 0.25 (PrimFloat.sub now1 (last_send s sid)) = true →
  let first := on_send_message sid now1 ts1 m1 s in
  let second := on_send_message sid now2 ts2 m2 first.1 in
  last_msg_time first.1 !! sid = Some now1 ∧
  (_get_user s sid = None ∨ Str.all_space (Str.or_empty m1) = true →
   first.2 = [] ∧ message_history first.1 = message_history s) ∧
  (is_Some (_get_user s sid) →
   Str.all_space (Str.or_empty m1) = true →
   Str.strip (Str.or_empty m2) ≠ "" →
   PrimFloat.ltb (PrimFloat.sub now2 now1) 0.25 = true →
   second.2 = [] ∧ message_history second.1 = message_history s).
Proof.
  intros Hpass%throttled_false. cbv zeta.
  rewrite (on_send_message_passed sid now1 ts1 m1 s Hpass). cbv zeta.
  assert (Hblank : Str.all_space (Str.or_empty m1) = true →
                   Str.truthy (Str.strip (Str.or_empty m1)) = false).
  { intros H. apply truthy_false. by apply strip_empty. }
  split; [|split].
  - destruct (_get_user s sid) as [u|]; [|apply lookup_insert_eq].
    destruct (Str.truthy _); apply lookup_insert_eq.
  - intros [->|Hb]; [done|].
    destruct (_get_user s sid) as [u|]; [|done]. by rewrite (Hblank Hb).
  - intros [u Hu] Hb Hm2 Hclose. rewrite Hu, (Hblank Hb). cbn [fst snd].
    assert (Hu' : ∀ h l, _get_user (mkState (users s) h l) sid = Some u)
      by (intros; exact Hu).
    rewrite (on_send_message_connected sid now2 ts2 m2 _ u (Hu' _ _) Hm2).
    rewrite last_send_insert.
    unfold throttled, MIN_SECONDS_BETWEEN_MSGS. by rewrite Hclose.
Qed.

Lemma rate_stamp_precedes_validation_witness :
  last_msg_time (on_send_message "a" 1000 t0 (Some "   ") one_user).1 !! "a"
    = Some 1000%float ∧
  (on_send_message "a" 1000.125 t1 (Some "hello")
     (on_send_message "a" 1000 t0 (Some "   ") one_user).1).2 = [].
Proof.
  pose proof (rate_stamp_precedes_validation one_user "a" 1000 1000.125 t0 t1
                (Some "   ") (Some "hello") eq_refl) as (H1 & _ & H3).
  split; [exact H1|].
  assert (Hm2 : Str.strip (Str.or_empty (Some "hello")) ≠ "") by discriminate.
  exact (proj1 (H3 (mk_is_Some _ _ eq_refl) eq_refl Hm2 eq_refl)).
Defined.

(** ** What every reachable state satisfies *)

Lemma wf_initial : wf_state initial.
Proof.
  split; [constructor|]. split; [constructor|]. simpl. unfold MAX_HISTORY. lia.
Qed.

Lemma sublist_Forall {A : Type} (P : A → Prop) (l1 l2 : list A) :
  sublist l1 l2 → Forall P l2 → Forall P l1.
Proof.
  induction 1 as [|x l1 l2 _ IH|x l1 l2 _ IH]; intros H.
  - constructor.
  - inversion H; subst. constructor; auto.
  - inversion H; subst. auto.
Qed.

Lemma wf_entry_lookup (s : State) (sid : string) (u : User) :
  wf_state s → _get_user s sid = Some u → wf_entry (sid, u).
Proof.
  intros (Hall & _ & _) Hu. rewrite Forall_forall in Hall.
  apply Hall. by apply get_Some_elem.
Qed.

Lemma handle_history_length (r : Request) (s : State) :
  length (message_history s) ≤ MAX_HISTORY →
  length (message_history (handle r s).1) ≤ MAX_HISTORY.
Proof.
  intros H. rewrite handle_history_last_n by done. rewrite length_last_n. lia.
Qed.

Lemma wf_set (s : State) (sid : string) (u : User) :
  wf_state s → wf_entry (sid, u) →
  wf_state (mkState (Dict.set sid u (users s)) (message_history s) (last_msg_time s)).
Proof.
  intros (Hall & Hnd & Hlen) Hu. split; [|split]; simpl.
  - by apply set_Forall.
  - by apply set_NoDup.
  - done.
Qed.

(** The handlers keep [wf_state], for requests as the gateway delivers them. *)
Lemma handle_wf (r : Request) (s : State) :
  gateway_ok r → wf_state s → wf_state (handle r s).1.
Proof.
  intros [Hsid Hr] Hwf.
  destruct r as [k n p|k|k now ts m|k p nm|k p g|k b|k ts to m]; simpl in *.
  - apply wf_set; [done|]. rewrite build_avatar_pick.
    split; [done|]. split; [done|]. split; [|done]. by destruct p; [left|right].
  - destruct Hwf as (Hall & Hnd & Hlen). unfold on_disconnect.
    pose proof (pop_sublist k (users s)) as Hsub.
    destruct (Dict.pop k (users s)) as [[u|] us]; simpl in *;
      (split; [by eapply sublist_Forall|]; split; [|done];
       eapply sublist_NoDup; [exact Hnd|]; by apply fmap_sublist).
  - destruct Hwf as (Hall & Hnd & Hlen).
    pose proof (handle_history_length (send_message k now ts m) s Hlen) as Hl.
    simpl in Hl. split; [|split; [|exact Hl]].
    + destruct (throttled now (last_send s k)) eqn:Ht.
      * by rewrite on_send_message_throttled.
      * rewrite on_send_message_passed by done. simpl.
        destruct (_get_user s k) as [u|]; [|done]. by destruct (Str.truthy _).
    + destruct (throttled now (last_send s k)) eqn:Ht.
      * by rewrite on_send_message_throttled.
      * rewrite on_send_message_passed by done. simpl.
        destruct (_get_user s k) as [u|]; [|done]. by destruct (Str.truthy _).
  - unfold on_update_username. destruct (_get_user s k) as [u|] eqn:Hu; [|done].
    destruct (negb _ || _) eqn:Hc; [done|].
    apply orb_false_iff in Hc as [Hn _]. apply negb_false_iff, truthy_true in Hn.
    destruct (wf_entry_lookup s k u Hwf Hu) as (_ & _ & Hg & _). simpl in Hg.
    apply wf_set; [done|]. split; [done|]. split; [done|]. split; [done|]. simpl.
    apply build_avatar_given. by destruct Hg as [->| ->].
  - unfold on_update_avatar_gender. destruct (_get_user s k) as [u|] eqn:Hu; [|done].
    destruct g as [g|]; [|done].
    destruct (bool_decide _ || bool_decide _) eqn:Hc; [|done].
    destruct (wf_entry_lookup s k u Hwf Hu) as (_ & Hn & _ & _). simpl in Hn.
    assert (Hg : g = "boy" ∨ g = "girl").
    { apply orb_true_iff in Hc as [H|H]; apply bool_decide_eq_true in H; auto. }
    apply wf_set; [done|]. split; [done|]. split; [done|]. split; [done|]. simpl.
    apply build_avatar_given. by destruct Hg as [->| ->].
  - unfold on_typing. by destruct (_get_user s k) as [u|].
  - unfold on_private_message. destruct (Dict.get k (users s)) as [u|]; [|done].
    destruct to as [b0|]; [|done]. destruct (_ || _); [done|].
    destruct (find_by_name _ _) as [t|]; [|done].
    by destruct (negb _).
Qed.

Lemma run_wf (rs : list Request) (s : State) :
  Forall gateway_ok rs → wf_state s → wf_state (run rs s).1.
Proof.
  intros Hrs. revert s. induction Hrs as [|r rs Hr _ IH]; intros s Hwf; [done|].
  rewrite run_cons_state. by apply IH, handle_wf.
Qed.

(** Every state the server reaches from its start is well formed. *)
Lemma reachable_wf (rs : list Request) :
  Forall gateway_ok rs → wf_state (run rs initial).1.
Proof. intros H. apply run_wf; [done | apply wf_initial]. Qed.

Example one_user_reached : (run [connect "a" 1234 boy] initial).1 = one_user.
Proof. reflexivity. Qed.

Example two_users_reached :
  (run [connect "a" 1234 boy; connect "b" 5678 girl] initial).1 = two_users.
Proof. reflexivity. Qed.

Lemma wf_two_users : wf_state two_users.
Proof.
  split; [|split].
  - repeat constructor; simpl; auto; discriminate.
  - apply NoDup_cons. split; [|apply NoDup_singleton].
    intros H%list_elem_of_singleton. discriminate.
  - simpl. unfold MAX_HISTORY. lia.
Defined.

Lemma wf_one_user : wf_state one_user.
Proof.
  split; [|split].
  - repeat constructor; simpl; auto; discriminate.
  - apply NoDup_singleton.
  - simpl. unfold MAX_HISTORY. lia.
Defined.

(** ** C6 *)

(** C6: in a state the handlers can reach, a connected sender named [A]
    sends a private message with a body that is not empty after trimming to
    a name [B] that the scan of [users] resolves to [target_sid].  Exactly
    two [private_message] deliveries are produced, the first to
    [target_sid] and the second back to the sender, with one and the same
    payload: from [A], to [B], [A]'s current avatar, the trimmed body, the
    timestamp.  The state, and with it the history, is unchanged. *)
Theorem private_message_two_deliveries
    (s : State) (sid target_sid : string) (sender : User)
    (ts B : string) (body : option string) :
  wf_state s →
  _get_user s sid = Some sender →
  find_by_name B (users s) = Some target_sid →
  Str.strip (Str.or_empty body) ≠ "" →
  let pm := mkPrivate (username sender) B (avatar sender)
                      (Str.strip (Str.or_empty body)) ts in
  on_private_message sid ts (Some B) body s =
    (s, [ mkEmit (Room target_sid) (private_message pm);
          mkEmit (Room sid) (private_message pm) ]).
Proof.
  intros Hwf Hs Hfind Hbody. cbv zeta.
  destruct (find_by_name_elem _ _ _ Hfind) as (u & Hin & <-).
  destruct Hwf as (Hall & _ & _). rewrite Forall_forall in Hall.
  destruct (Hall _ Hin) as (Hsid & Hu & _). simpl in Hsid, Hu.
  apply truthy_true in Hu, Hbody, Hsid.
  unfold on_private_message. unfold _get_user in Hs.
  by rewrite Hs, Hfind, Hu, Hbody, Hsid.
Qed.

Lemma private_message_two_deliveries_witness :
  let pm := mkPrivate "User_1234" "User_5678" (avatar user_a) "hi" t0 in
  on_private_message "a" t0 (Some "User_5678") (Some " hi ") two_users =
    (two_users, [ mkEmit (Room "b") (private_message pm);
                  mkEmit (Room "a") (private_message pm) ]).
Proof.
  assert (Hbody : Str.strip (Str.or_empty (Some " hi ")) ≠ "") by discriminate.
  exact (private_message_two_deliveries two_users "a" "b" user_a t0 "User_5678"
           (Some " hi ") wf_two_users eq_refl eq_refl Hbody).
Defined.

(** ** C7 *)

(** C7: a private message whose target name is missing or empty, whose body
    is empty after trimming, or whose target name is the name of no user in
    [users], produces no event and leaves the state as it was, whoever
    sends it. *)
Theorem private_message_dropped
    (s : State) (sid ts : string) (to body : option string) :
  (to = None ∨ to = Some "" ∨ Str.strip (Str.or_empty body) = "" ∨
   ∃ B, to = Some B ∧ ∀ k u, (k, u) ∈ users s → username u ≠ B) →
  on_private_message sid ts to body s = (s, []).
Proof.
  intros H. unfold on_private_message.
  destruct (Dict.get sid (users s)) as [sender|]; [|done].
  destruct to as [B|]; [|done].
  destruct H as [H|[H|[H|(B' & H & Hf)]]].
  - discriminate.
  - injection H as ->. done.
  - apply truthy_false in H. rewrite H. by rewrite orb_true_r.
  - injection H as <-. apply find_by_name_None in Hf. rewrite Hf.
    by destruct (_ || _).
Qed.

Lemma private_message_dropped_witness :
  on_private_message "a" t0 (Some "nobody") (Some "hi") two_users = (two_users, []) ∧
  on_private_message "a" t0 (Some "User_5678") (Some "  ") two_users = (two_users, []).
Proof.
  split.
  - apply private_message_dropped. right; right; right.
    exists "nobody". split; [reflexivity|].
    intros k u [[= -> ->]|[[= -> ->]|H]%elem_of_cons]%elem_of_cons;
      [discriminate | discriminate | by apply elem_of_nil in H].
  - apply private_message_dropped. right; right; left. reflexivity.
Defined.

(** ** C8 *)

(** C8: for a connected connection_id in a state the handlers can reach,
    [on_update_username] with a name that is empty or whitespace only, or
    that equals the current name after trimming, changes nothing and emits
    nothing.  Otherwise it stores the trimmed name, rebuilds the avatar from
    it with the gender the record already has, keeps that gender, and
    broadcasts [username_updated] with the old name, the new name and the
    new avatar, followed by the presence listing of the updated [users]. *)
Theorem update_username_spec
    (s : State) (sid : string) (u : User) (pick : Pick) (new_name : option string) :
  wf_state s →
  _get_user s sid = Some u →
  let new := Str.strip (Str.or_empty new_name) in
  let r := on_update_username sid pick new_name s in
  (Str.all_space (Str.or_empty new_name) = true ∨ new = username u →
   r = (s, [])) ∧
  (Str.all_space (Str.or_empty new_name) = false → new ≠ username u →
   let url := avatar_url (gender u) new in
   let us := Dict.set sid (mkUser new url (gender u)) (users s) in
   r = (mkState us (message_history s) (last_msg_time s),
        [ mkEmit Broadcast (username_updated (username u) new url);
          mkEmit Broadcast (online_users_list (_online_users_payload us)) ]) ∧
   _get_user r.1 sid = Some (mkUser new url (gender u))).
Proof.
  intros Hwf Hu. cbv zeta. unfold on_update_username. rewrite Hu.
  destruct (wf_entry_lookup s sid u Hwf Hu) as (_ & _ & Hg & _). simpl in Hg.
  split.
  - intros [Hb|He].
    + apply strip_empty, truthy_false in Hb. by rewrite Hb.
    + rewrite (bool_decide_eq_true_2 _ He). by rewrite orb_true_r.
  - intros Hb He.
    assert (Hn : Str.truthy (Str.strip (Str.or_empty new_name)) = true).
    { apply truthy_true. intros H%strip_empty. congruence. }
    rewrite Hn, (bool_decide_eq_false_2 _ He). simpl.
    rewrite build_avatar_given by (by destruct Hg as [->| ->]).
    split; [done|]. apply get_set_eq.
Qed.

Lemma update_username_spec_witness :
  on_update_username "a" girl (Some "  ") one_user = (one_user, []) ∧
  on_update_username "a" girl (Some " Ann ") one_user =
    (mkState [("a", mkUser "Ann" (avatar_url "boy" "Ann") "boy")] [] ∅,
     [ mkEmit Broadcast
         (username_updated "User_1234" "Ann" (avatar_url "boy" "Ann"));
       mkEmit Broadcast
         (online_users_list [mkPresence "Ann" (avatar_url "boy" "Ann")]) ]).
Proof.
  split.
  - exact (proj1 (update_username_spec one_user "a" user_a girl (Some "  ")
                    wf_one_user eq_refl) (or_introl eq_refl)).
  - assert (Hne : Str.strip (Str.or_empty (Some " Ann ")) ≠ username user_a)
      by discriminate.
    exact (proj1 (proj2 (update_username_spec one_user "a" user_a girl
                           (Some " Ann ") wf_one_user eq_refl) eq_refl Hne)).
Defined.

(** ** C9 *)

(** C9: for a connected connection_id, [on_update_avatar_gender] with a
    value that is neither "boy" nor "girl" (or with none) changes nothing,
    so gender and avatar stay as they were, and emits nothing.  With one of
    the two values it stores the value as the gender, rebuilds the avatar
    from the current name, and broadcasts [avatar_updated] followed by the
    presence listing of the updated [users]. *)
Theorem update_gender_spec
    (s : State) (sid : string) (u : User) (pick : Pick) (g : option string) :
  _get_user s sid = Some u →
  let r := on_update_avatar_gender sid pick g s in
  (g ≠ Some "boy" ∧ g ≠ Some "girl" → r = (s, [])) ∧
  (∀ g0, g = Some g0 → g0 = "boy" ∨ g0 = "girl" →
   let url := avatar_url g0 (username u) in
   let us := Dict.set sid (mkUser (username u) url g0) (users s) in
   r = (mkState us (message_history s) (last_msg_time s),
        [ mkEmit Broadcast (avatar_updated (username u) url);
          mkEmit Broadcast (online_users_list (_online_users_payload us)) ]) ∧
   _get_user r.1 sid = Some (mkUser (username u) url g0)).
Proof.
  intros Hu. cbv zeta. unfold on_update_avatar_gender. rewrite Hu. split.
  - intros [Hb Hg]. destruct g as [g0|]; [|done].
    rewrite (bool_decide_eq_false_2 (g0 = "boy")) by congruence.
    by rewrite (bool_decide_eq_false_2 (g0 = "girl")) by congruence.
  - intros g0 -> Hg.
    assert (Hc : bool_decide (g0 = "boy") || bool_decide (g0 = "girl") = true).
    { destruct Hg as [->| ->]; reflexivity. }
    rewrite Hc. rewrite build_avatar_given by (by destruct Hg as [->| ->]).
    split; [done|]. apply get_set_eq.
Qed.

Lemma update_gender_spec_witness :
  on_update_avatar_gender "a" boy (Some "other") one_user = (one_user, []) ∧
  on_update_avatar_gender "a" boy (Some "girl") one_user =
    (mkState [("a", mkUser "User_1234" (avatar_url "girl" "User_1234") "girl")] [] ∅,
     [ mkEmit Broadcast
         (avatar_updated "User_1234" (avatar_url "girl" "User_1234"));
       mkEmit Broadcast
         (online_users_list
            [mkPresence "User_1234" (avatar_url "girl" "User_1234")]) ]).
Proof.
  split.
  - assert (H : Some "other" ≠ Some "boy" ∧ Some "other" ≠ Some "girl")
      by (split; discriminate).
    exact (proj1 (update_gender_spec one_user "a" user_a boy (Some "other")
                    eq_refl) H).
  - exact (proj1 (proj2 (update_gender_spec one_user "a" user_a boy (Some "girl")
                           eq_refl) "girl" eq_refl (or_intror eq_refl))).
Defined.

(** * Further properties of the handlers *)

(** ** More on dictionaries *)

Section dict_more.
Context {V : Type}.
Implicit Types (d : list (string * V)) (k : string) (v : V).

Lemma get_set_other k k' v d :
  k ≠ k' → Dict.get k' (Dict.set k v d) = Dict.get k' d.
Proof.
  intros Hne. induction d as [|[k0 v0] d IH]; simpl.
  - by rewrite decide_False.
  - destruct (decide (k0 = k)) as [->|Hk]; simpl.
    + by rewrite !decide_False.
    + by rewrite IH.
Qed.

Lemma set_absent k v d : Dict.get k d = None → Dict.set k v d = d ++ [(k, v)].
Proof.
  induction d as [|[k0 v0] d IH]; simpl; [done|].
  destruct (decide (k0 = k)); [discriminate|]. intros H. by rewrite IH.
Qed.

Lemma get_pop_other k k' d :
  k ≠ k' → Dict.get k' (Dict.pop k d).2 = Dict.get k' d.
Proof.
  intros Hne. induction d as [|[k0 v0] d IH]; simpl; [done|].
  destruct (decide (k0 = k)) as [->|Hk]; simpl.
  - by rewrite decide_False.
  - destruct (Dict.pop k d) as [r d'']. simpl in *. by rewrite IH.
Qed.

Lemma get_pop_same k d :
  NoDup (Dict.keys d) → Dict.get k (Dict.pop k d).2 = None.
Proof.
  unfold Dict.keys. induction d as [|[k0 v0] d IH]; csimpl; [done|].
  intros [Hnotin Hnd]%NoDup_cons. destruct (decide (k0 = k)) as [->|Hk]; simpl.
  - by apply get_None_keys.
  - destruct (Dict.pop k d) as [r d''] eqn:E. simpl in *.
    rewrite decide_False by done. by apply IH.
Qed.

Lemma pop_found k d : (Dict.pop k d).1 = Dict.get k d.
Proof.
  induction d as [|[k0 v0] d IH]; simpl; [done|].
  destruct (decide (k0 = k)); [done|].
  destruct (Dict.pop k d) as [r d'']. exact IH.
Qed.

Lemma pop_split k v d :
  Dict.get k d = Some v →
  ∃ before after,
    d = before ++ (k, v) :: after ∧ (k ∉ Dict.keys before) ∧
    (Dict.pop k d).2 = before ++ after.
Proof.
  induction d as [|[k0 v0] d IH]; simpl; [discriminate|].
  destruct (decide (k0 = k)) as [->|Hk].
  - intros [= ->]. exists [], d. split; [done|]. split; [apply not_elem_of_nil | done].
  - intros H. destruct (IH H) as (b & a & -> & Hb & Hp).
    exists ((k0, v0) :: b), a. split; [done|]. split.
    + unfold Dict.keys in *. csimpl. apply not_elem_of_cons. split; [congruence | done].
    + destruct (Dict.pop k (b ++ (k, v) :: a)) as [r d'']. simpl in *. by rewrite Hp.
Qed.

Lemma pop_None k d d' : Dict.pop k d = (None, d') → d' = d.
Proof.
  intros H. pose proof (pop_found k d) as Hf. rewrite H in Hf. simpl in Hf.
  rewrite (pop_absent k d) in H by done. congruence.
Qed.

End dict_more.

(** ** X1 *)

(** X1: [on_connect] for a connection_id that is not in [users] puts the
    generated record after all existing ones, which stay as they are, leaves
    the history and the limiter alone, and emits, in this order:
    [set_username] and the current history to the new connection, then
    [user_joined] and the presence listing (the old listing followed by the
    newcomer) to everyone. *)
Theorem on_connect_fresh (s : State) (sid : string) (n : N) (pick : Pick) :
  _get_user s sid = None →
  let name := "User_" +:+ pretty n in
  let url := avatar_url (pick_str pick) name in
  on_connect sid n pick s =
    (mkState (users s ++ [(sid, mkUser name url (pick_str pick))])
             (message_history s) (last_msg_time s),
     [ mkEmit (Room sid) (set_username name);
       mkEmit (Room sid) (message_history_ev (message_history s));
       mkEmit Broadcast (user_joined name url);
       mkEmit Broadcast
         (online_users_list
            (_online_users_payload (users s) ++ [mkPresence name url])) ]).
Proof.
  intros Hnone. cbv zeta. unfold on_connect, _get_user in *.
  rewrite build_avatar_pick, (set_absent _ _ _ Hnone).
  unfold _online_users_payload, Dict.values. by rewrite !fmap_app.
Qed.

Lemma on_connect_fresh_witness :
  on_connect "b" 5678 girl one_user =
    (two_users,
     [ mkEmit (Room "b") (set_username "User_5678");
       mkEmit (Room "b") (message_history_ev []);
       mkEmit Broadcast (user_joined "User_5678" (avatar user_b));
       mkEmit Broadcast
         (online_users_list
            [ mkPresence "User_1234" (avatar user_a);
              mkPresence "User_5678" (avatar user_b) ]) ]).
Proof. exact (on_connect_fresh one_user "b" 5678 girl eq_refl). Defined.

(** ** X2 *)

(** X2: [on_disconnect] for a connected connection_id removes exactly that
    record: the id is no longer found, every other id keeps its record and
    the remaining records keep their order.  It leaves the history and the
    limiter alone and broadcasts [user_left] with the name the record had,
    followed by the presence listing of the remaining users. *)
Theorem on_disconnect_connected (s : State) (sid : string) (u : User) :
  NoDup (Dict.keys (users s)) →
  _get_user s sid = Some u →
  let s' := (on_disconnect sid s).1 in
  _get_user s' sid = None ∧
  (∀ k, k ≠ sid → _get_user s' k = _get_user s k) ∧
  (∃ before after,
     users s = before ++ (sid, u) :: after ∧ users s' = before ++ after) ∧
  message_history s' = message_history s ∧
  last_msg_time s' = last_msg_time s ∧
  (on_disconnect sid s).2 =
    [ mkEmit Broadcast (user_left (username u));
      mkEmit Broadcast (online_users_list (_online_users_payload (users s'))) ].
Proof.
  intros Hnd Hu. cbv zeta. unfold _get_user in *.
  pose proof (get_pop_same sid (users s) Hnd) as Hsame.
  pose proof (λ k (H : k ≠ sid), get_pop_other sid k (users s) (not_eq_sym H)) as Hother.
  pose proof (pop_found sid (users s)) as Hfound.
  destruct (pop_split sid u (users s) Hu) as (b & a & Hs & _ & Hp).
  unfold on_disconnect.
  destruct (Dict.pop sid (users s)) as [r us] eqn:E. simpl in *.
  rewrite Hu in Hfound. subst r. simpl.
  repeat split; try done. exists b, a. by split.
Qed.

Lemma on_disconnect_connected_witness :
  (on_disconnect "a" two_users).1 = mkState [("b", user_b)] [] ∅ ∧
  (on_disconnect "a" two_users).2 =
    [ mkEmit Broadcast (user_left "User_1234");
      mkEmit Broadcast
        (online_users_list [mkPresence "User_5678" (avatar user_b)]) ].
Proof.
  split; [reflexivity|].
  exact (proj2 (proj2 (proj2 (proj2 (proj2
    (on_disconnect_connected two_users "a" user_a
       (proj1 (proj2 wf_two_users)) eq_refl)))))).
Defined.

(** ** X3 *)

(** X3: a second [on_disconnect] for the same connection_id does nothing:
    it emits no event and returns the state the first one left. *)
Theorem on_disconnect_twice (s : State) (sid : string) :
  NoDup (Dict.keys (users s)) →
  on_disconnect sid (on_disconnect sid s).1 = ((on_disconnect sid s).1, []).
Proof.
  intros Hnd. apply on_disconnect_unknown. unfold _get_user, on_disconnect.
  pose proof (get_pop_same sid (users s) Hnd) as Hsame.
  by destruct (Dict.pop sid (users s)) as [[u|] us].
Qed.

Lemma on_disconnect_twice_witness :
  on_disconnect "a" (on_disconnect "a" two_users).1
  = (mkState [("b", user_b)] [] ∅, []).
Proof. exact (on_disconnect_twice two_users "a" (proj1 (proj2 wf_two_users))). Defined.

(** ** X4 *)

(** Case analysis on a request and on the branch its handler takes. *)
Ltac handler_cases r s :=
  destruct r as [k n p|k|k now ts m|k p nm|k p g|k b|k ts to m]; simpl;
  [ idtac
  | unfold on_disconnect; destruct (Dict.pop k (users s)) as [[u|] us] eqn:Hpop
  | destruct (throttled now (last_send s k)) eqn:Ht;
    [ rewrite on_send_message_throttled by done
    | rewrite on_send_message_passed by done; cbv zeta;
      destruct (_get_user s k) as [u|] eqn:Hu;
      [ destruct (Str.truthy (Str.strip (Str.or_empty m))) eqn:Hm | ] ]
  | unfold on_update_username; destruct (_get_user s k) as [u|] eqn:Hu;
    [ destruct (negb _ || _) eqn:Hc | ]
  | unfold on_update_avatar_gender; destruct (_get_user s k) as [u|] eqn:Hu;
    [ destruct g as [g|]; [ destruct (bool_decide _ || bool_decide _) eqn:Hc | ] | ]
  | unfold on_typing; destruct (_get_user s k) as [u|] eqn:Hu
  | unfold on_private_message; destruct (Dict.get k (users s)) as [u|] eqn:Hu;
    [ destruct to as [b0|];
      [ destruct (negb _ || negb _) eqn:Hc;
        [ | destruct (find_by_name b0 (users s)) as [t|] eqn:Hf;
            [ destruct (negb (Str.truthy t)) eqn:Ht | ] ] | ] | ] ].

Lemma handle_keeps_users (r : Request) (s : State) :
  writes_users r = false → users (handle r s).1 = users s.
Proof. handler_cases r s; simpl; try done; discriminate. Qed.

(** X4: which table each handler can change.  Only [on_send_message]
    changes the history or the limiter; [on_send_message], [on_typing] and
    [on_private_message] never change [users]; [on_typing] and
    [on_private_message] change nothing at all, so a private message is
    never kept anywhere. *)
Theorem handle_frame (r : Request) (s : State) :
  (is_send_message r = false →
   message_history (handle r s).1 = message_history s ∧
   last_msg_time (handle r s).1 = last_msg_time s) ∧
  (writes_users r = false → users (handle r s).1 = users s) ∧
  (is_send_message r = false → writes_users r = false → (handle r s).1 = s).
Proof.
  handler_cases r s; simpl; repeat split; try done; try discriminate.
Qed.

(** ** X5 *)

(** X5: a presence listing is never stale.  Every [online_users_list] a
    handler emits carries the listing of [users] as the handler leaves it,
    and a handler that changes [users] ends with such an event. *)
Theorem presence_listing_current (r : Request) (s : State) :
  (∀ e l, e ∈ (handle r s).2 → payload e = online_users_list l →
          l = _online_users_payload (users (handle r s).1)) ∧
  (users (handle r s).1 ≠ users s →
   last (handle r s).2 =
     Some (mkEmit Broadcast
             (online_users_list (_online_users_payload (users (handle r s).1))))).
Proof.
  assert (Hin : ∀ (e : Emit) (es : list Emit) (P : Prop),
             Forall (λ e', e = e' → P) es → e ∈ es → P).
  { intros e es P HF He. rewrite Forall_forall in HF. by eapply HF. }
  handler_cases r s; simpl; (split; [intros e l He Hp | try done]);
    try (by apply elem_of_nil in He);
    try (revert Hp; eapply Hin; [|exact He];
         repeat constructor; intros -> [=]; done).
  intros Hne. destruct Hne. by eapply pop_None.
Qed.

(** ** X6 *)

(** X6: each kind of event goes to the audience its [emit] call names, for
    every handler and state: [set_username] and the history replay only to
    the connection the handler runs for, [user_typing] to everyone but that
    connection, [private_message] to single connections, and all the other
    events to everyone. *)
Theorem emits_reach_their_audience (r : Request) (s : State) (e : Emit) :
  e ∈ (handle r s).2 → audience (sid_of r) (payload e) (target e).
Proof.
  assert (Hin : ∀ (es : list Emit),
             Forall (λ e', audience (sid_of r) (payload e') (target e')) es →
             e ∈ es → audience (sid_of r) (payload e) (target e)).
  { intros es HF He. rewrite Forall_forall in HF. by apply HF. }
  intros He. revert He. apply Hin.
  handler_cases r s; simpl; repeat constructor; by eexists.
Qed.

Lemma emits_reach_their_audience_witness :
  audience "a" (user_typing "User_1234" true) (BroadcastOthers "a").
Proof.
  exact (emits_reach_their_audience (typing "a" true) one_user
           (mkEmit (BroadcastOthers "a") (user_typing "User_1234" true))
           (list_elem_of_here _ _)).
Defined.

(** ** X7 *)

(** X7: a private message reaches nobody but the sender and a user who
    carries the target name.  Whatever the arguments, [on_private_message]
    leaves the state as it was, and each event it emits is a
    [private_message] addressed either to the sender's connection or to a
    connection whose record in [users] has the name given in [to]. *)
Theorem private_message_stays_private
    (s : State) (sid ts : string) (to body : option string) :
  (on_private_message sid ts to body s).1 = s ∧
  ∀ e, e ∈ (on_private_message sid ts to body s).2 →
    (∃ m, payload e = private_message m ∧ Some (priv_to m) = to) ∧
    (target e = Room sid ∨
     ∃ k u, target e = Room k ∧ (k, u) ∈ users s ∧ Some (username u) = to).
Proof.
  unfold on_private_message.
  destruct (Dict.get sid (users s)) as [u|] eqn:Hu;
    [|split; [done | by intros e H%elem_of_nil]].
  destruct to as [b0|]; [|split; [done | by intros e H%elem_of_nil]].
  destruct (negb _ || negb _); [split; [done | by intros e H%elem_of_nil]|].
  destruct (find_by_name b0 (users s)) as [t|] eqn:Hf;
    [|split; [done | by intros e H%elem_of_nil]].
  destruct (negb (Str.truthy t)); [split; [done | by intros e H%elem_of_nil]|].
  split; [done|].
  destruct (find_by_name_elem _ _ _ Hf) as (v & Hin & Hv).
  intros e [->|[->|H%elem_of_nil]%elem_of_cons]%elem_of_cons; [| |done]; simpl.
  - split; [by eexists|]. right. exists t, v. by rewrite Hv.
  - split; [by eexists|]. by left.
Qed.

(** ** X8 *)

Lemma rstrip_rstrip (s : string) : Str.rstrip (Str.rstrip s) = Str.rstrip s.
Proof.
  induction s as [|c s IH]; simpl; [done|].
  destruct (Str.rstrip s) as [|c' r] eqn:E.
  - destruct (Str.isspace c) eqn:Ec; simpl; [done|]. by rewrite Ec.
  - change (Str.rstrip (String c (String c' r)))
      with (match Str.rstrip (String c' r) with
            | EmptyString =>
                if Str.isspace c then EmptyString else String c EmptyString
            | r0 => String c r0
            end).
    by rewrite IH.
Qed.

Lemma rstrip_head (c : Ascii.ascii) (s : string) :
  ∃ r, Str.rstrip (String c s) = String c r ∨
       (Str.rstrip (String c s) = "" ∧ Str.isspace c = true).
Proof.
  simpl. destruct (Str.rstrip s) as [|c' r].
  - destruct (Str.isspace c); [exists ""; by right | exists ""; by left].
  - exists (String c' r). by left.
Qed.

Lemma lstrip_rstrip_lstrip (s : string) :
  Str.lstrip (Str.rstrip (Str.lstrip s)) = Str.rstrip (Str.lstrip s).
Proof.
  induction s as [|c s IH]; simpl; [done|].
  destruct (Str.isspace c) eqn:Ec; [exact IH|].
  destruct (rstrip_head c s) as [r [Hr|[_ Hs]]]; [|congruence].
  rewrite Hr. simpl. by rewrite Ec.
Qed.

(** Trimming twice is trimming once. *)
Lemma strip_strip (s : string) : Str.strip (Str.strip s) = Str.strip s.
Proof. unfold Str.strip. by rewrite lstrip_rstrip_lstrip, rstrip_rstrip. Qed.

Lemma handle_published (r : Request) (s : State) (msg : PublicMessage) :
  msg ∈ published (handle r s).2 →
  ∃ now ts body u,
    r = send_message (sid_of r) now ts body ∧
    _get_user s (sid_of r) = Some u ∧
    msg = mkPublic (username u) (avatar u) (Str.strip (Str.or_empty body)) ts ∧
    Str.strip (Str.or_empty body) ≠ "".
Proof.
  handler_cases r s; simpl; try (by intros H%elem_of_nil).
  intros ->%list_elem_of_singleton. exists now, ts, m, u.
  by apply truthy_true in Hm.
Qed.

Lemma run_published (P : PublicMessage → Prop) (rs : list Request) (s : State) :
  (∀ r s' m, m ∈ published (handle r s').2 → P m) →
  ∀ m, m ∈ published (run rs s).2 → P m.
Proof.
  intros HP. revert s. induction rs as [|r rs IH]; intros s m.
  - simpl. by intros H%elem_of_nil.
  - rewrite run_cons_out, published_app. intros [H|H]%elem_of_app.
    + by eapply HP.
    + by eapply IH.
Qed.

(** X8: whatever the requests, every message kept in the history has a body
    that is not empty and carries no whitespace at either end: trimming it
    again gives it back. *)
Theorem history_bodies_trimmed (rs : list Request) (m : PublicMessage) :
  m ∈ message_history (run rs initial).1 →
  pub_message m ≠ "" ∧ Str.strip (pub_message m) = pub_message m.
Proof.
  intros Hm.
  assert (H0 : length (message_history initial) ≤ MAX_HISTORY).
  { simpl. unfold MAX_HISTORY. lia. }
  rewrite (run_history rs initial H0) in Hm. simpl in Hm. unfold last_n in Hm.
  eapply elem_of_sublist in Hm; [|apply sublist_drop].
  revert m Hm. apply run_published. intros r s' m Hm.
  destruct (handle_published r s' m Hm) as (now & ts & body & u & _ & _ & -> & Hne).
  simpl. split; [done | apply strip_strip].
Qed.

Lemma history_bodies_trimmed_witness :
  pub_message (mkPublic "User_1234" (avatar user_a) "hi" t0) ≠ "" ∧
  Str.strip (pub_message (mkPublic "User_1234" (avatar user_a) "hi" t0))
  = pub_message (mkPublic "User_1234" (avatar user_a) "hi" t0).
Proof.
  exact (history_bodies_trimmed
           [connect "a" 1234 boy; send_message "a" 1000 t0 (Some "  hi  ")]
           (mkPublic "User_1234" (avatar user_a) "hi" t0)
           (list_elem_of_here _ _)).
Defined.

(** ** X9 *)

(** X9: the scan for a target name returns the connection_id of the first
    record, in the order the records were inserted, that carries the name,
    and nothing exactly when no record carries it. *)
Theorem find_by_name_first (name sid : string) (us : list (string * User)) :
  find_by_name name us = Some sid ↔
  ∃ before u after,
    us = before ++ (sid, u) :: after ∧ username u = name ∧
    ∀ k v, (k, v) ∈ before → username v ≠ name.
Proof.
  revert sid. induction us as [|[k0 u0] us IH]; intros sid; simpl.
  - split; [discriminate|]. intros (b & u & a & H & _). by destruct b.
  - destruct (decide (username u0 = name)) as [Hu|Hu].
    + split.
      * intros [= ->]. exists [], u0, us. split; [done|]. split; [done|].
        intros k v H. by apply elem_of_nil in H.
      * intros (b & u & a & H & Hn & Hb). destruct b as [|[k1 v1] b].
        -- by injection H as -> _ _.
        -- injection H as -> -> _. by destruct (Hb k1 v1 (list_elem_of_here _ _)).
    + rewrite IH. split.
      * intros (b & u & a & -> & Hn & Hb). exists ((k0, u0) :: b), u, a.
        split; [done|]. split; [done|].
        intros k v [[= -> ->]|H]%elem_of_cons; [done | by eapply Hb].
      * intros (b & u & a & H & Hn & Hb). destruct b as [|[k1 v1] b].
        -- injection H as _ -> _. congruence.
        -- injection H as _ _ ->. exists b, u, a. split; [done|]. split; [done|].
           intros k v Hin. eapply Hb. by apply list_elem_of_further.
Qed.

(** ** X10 *)

(** X10: display names are not kept unique.  A connected user may take the
    name another connected user already has: the rename goes through, is
    announced with [username_updated], and afterwards both records carry
    the name. *)
Theorem rename_to_taken_name
    (s : State) (a b : string) (ua ub : User) (pick : Pick)
    (new_name : option string) :
  a ≠ b →
  _get_user s a = Some ua →
  _get_user s b = Some ub →
  Str.strip (Str.or_empty new_name) = username ua →
  username ua ≠ "" →
  username ub ≠ username ua →
  let r := on_update_username b pick new_name s in
  (∃ ua' ub', _get_user r.1 a = Some ua' ∧ _get_user r.1 b = Some ub' ∧
              username ua' = username ua ∧ username ub' = username ua) ∧
  ∃ url, head r.2 =
    Some (mkEmit Broadcast (username_updated (username ub) (username ua) url)).
Proof.
  intros Hab Ha Hb Htrim Hne Hdiff. cbv zeta.
  unfold on_update_username. rewrite Hb. cbv zeta. rewrite Htrim.
  apply truthy_true in Hne. rewrite Hne. simpl.
  rewrite bool_decide_eq_false_2 by congruence.
  split; [|by eexists].
  exists ua. eexists. unfold _get_user in *. simpl.
  rewrite get_set_other by done. rewrite get_set_eq. by repeat split.
Qed.

Lemma rename_to_taken_name_witness :
  ∃ ua' ub',
    _get_user (on_update_username "b" boy (Some " User_1234 ") two_users).1 "a"
      = Some ua' ∧
    _get_user (on_update_username "b" boy (Some " User_1234 ") two_users).1 "b"
      = Some ub' ∧
    username ua' = "User_1234" ∧ username ub' = "User_1234".
Proof.
  assert (Hab : "a" ≠ "b") by discriminate.
  assert (Hne : username user_a ≠ "") by discriminate.
  assert (Hdiff : username user_b ≠ username user_a) by discriminate.
  exact (proj1 (rename_to_taken_name two_users "a" "b" user_a user_b boy
                  (Some " User_1234 ") Hab eq_refl eq_refl eq_refl Hne Hdiff)).
Defined.

(** ** X11 *)

(** A send that the rate check stops, from an id that has an entry, changes
    nothing at all. *)
Lemma on_send_message_throttled_noop sid now ts message s t :
  last_msg_time s !! sid = Some t →
  throttled now t = true →
  on_send_message sid now ts message s = (s, []).
Proof.
  intros Ht Hth.
  assert (Hl : last_send s sid = t) by (unfold last_send; by rewrite Ht).
  rewrite on_send_message_throttled by (by rewrite Hl).
  rewrite Hl, insert_id by done. by rewrite state_eta.
Qed.

(** X11: a send that is stopped by the rate check does not restart the
    interval.  After a published send at [now1], a send at [now2] less than
    0.25 seconds later is dropped and leaves the state as it was, and a
    send at [now3] at least 0.25 seconds after [now1] is published, however
    close [now3] is to [now2]. *)
Theorem throttled_send_keeps_interval
    (s : State) (sid : string) (u : User)
    (now1 now2 now3 : float) (ts1 ts2 ts3 : string) (m1 m2 m3 : option string) :
  _get_user s sid = Some u →
  Str.strip (Str.or_empty m1) ≠ "" →
  Str.strip (Str.or_empty m3) ≠ "" →
  PrimFloat.leb 0.25 (PrimFloat.sub now1 (last_send s sid)) = true →
  PrimFloat.ltb (PrimFloat.sub now2 now1) 0.25 = true →
  PrimFloat.leb 0.25 (PrimFloat.sub now3 now1) = true →
  let s1 := (on_send_message sid now1 ts1 m1 s).1 in
  let second := on_send_message sid now2 ts2 m2 s1 in
  let third := on_send_message sid now3 ts3 m3 second.1 in
  second = (s1, []) ∧
  third.2 =
    [ mkEmit Broadcast
        (new_message (mkPublic (username u) (avatar u)
                               (Str.strip (Str.or_empty m3)) ts3)) ].
Proof.
  intros Hu Hm1 Hm3 H1%throttled_false H2 H3%throttled_false. cbv zeta.
  assert (Hu' : ∀ h l, _get_user (mkState (users s) h l) sid = Some u)
    by (intros; exact Hu).
  rewrite (on_send_message_connected sid now1 ts1 m1 s u Hu Hm1), H1.
  cbn [fst snd].
  rewrite (on_send_message_throttled_noop sid now2 ts2 m2 _ now1);
    [|simpl; apply lookup_insert_eq | exact H2].
  split; [done|]. cbn [fst snd].
  rewrite (on_send_message_connected sid now3 ts3 m3 _ u (Hu' _ _) Hm3).
  by rewrite last_send_insert, H3.
Qed.

Lemma throttled_send_keeps_interval_witness :
  (on_send_message "a" 1000.25 t1 (Some "three")
     (on_send_message "a" 1000.125 t1 (Some "two")
        (on_send_message "a" 1000 t0 (Some "one") one_user).1).1).2
  = [ mkEmit Broadcast
        (new_message (mkPublic "User_1234" (avatar user_a) "three" t1)) ].
Proof.
  assert (Hm1 : Str.strip (Str.or_empty (Some "one")) ≠ "") by discriminate.
  assert (Hm3 : Str.strip (Str.or_empty (Some "three")) ≠ "") by discriminate.
  exact (proj2 (throttled_send_keeps_interval one_user "a" user_a
                  1000 1000.125 1000.25 t0 t1 t1
                  (Some "one") (Some "two") (Some "three")
                  eq_refl Hm1 Hm3 eq_refl eq_refl eq_refl)).
Defined.

(** ** X12 *)

(** What [on_send_message] emits depends on the state only through [users]
    and the sender's own limiter entry. *)
Lemma on_send_message_out_depends sid now ts message s s' :
  users s' = users s →
  last_msg_time s' !! sid = last_msg_time s !! sid →
  (on_send_message sid now ts message s').2 = (on_send_message sid now ts message s).2.
Proof.
  intros Hus Hl.
  assert (Hls : last_send s' sid = last_send s sid) by (unfold last_send; by rewrite Hl).
  assert (Hg : _get_user s' sid = _get_user s sid) by (unfold _get_user; by rewrite Hus).
  destruct (throttled now (last_send s sid)) eqn:Ht.
  - rewrite !on_send_message_throttled by (by rewrite ?Hls). done.
  - rewrite !on_send_message_passed by (by rewrite ?Hls). cbv zeta. rewrite Hg.
    destruct (_get_user s sid) as [u|]; [|done]. by destruct (Str.truthy _).
Qed.

(** X12: the throttle is per connection.  Whether and what a send from [b]
    publishes is the same whether or not a send from a different
    connection [a] was handled just before it, and [a]'s send touches no
    limiter entry but its own. *)
Theorem throttle_is_per_connection
    (s : State) (a b : string)
    (nowa nowb : float) (tsa tsb : string) (ma mb : option string) :
  a ≠ b →
  let after_a := (on_send_message a nowa tsa ma s).1 in
  (on_send_message b nowb tsb mb after_a).2 = (on_send_message b nowb tsb mb s).2 ∧
  last_msg_time after_a !! b = last_msg_time s !! b.
Proof.
  intros Hab. cbv zeta.
  assert (Hus : users (on_send_message a nowa tsa ma s).1 = users s).
  { by apply (handle_keeps_users (send_message a nowa tsa ma) s). }
  assert (Hl : last_msg_time (on_send_message a nowa tsa ma s).1 !! b
               = last_msg_time s !! b).
  { destruct (throttled nowa (last_send s a)) eqn:Ht.
    - rewrite on_send_message_throttled by done. simpl. by rewrite lookup_insert_ne.
    - rewrite on_send_message_passed by done. cbv zeta.
      destruct (_get_user s a) as [u|]; [|simpl; by rewrite lookup_insert_ne].
      destruct (Str.truthy _); simpl; by rewrite lookup_insert_ne. }
  split; [by apply on_send_message_out_depends | done].
Qed.

Lemma throttle_is_per_connection_witness :
  (on_send_message "b" 1000.125 t1 (Some "mine")
     (on_send_message "a" 1000 t0 (Some "yours") two_users).1).2
  = (on_send_message "b" 1000.125 t1 (Some "mine") two_users).2.
Proof.
  assert (Hab : "a" ≠ "b") by discriminate.
  exact (proj1 (throttle_is_per_connection two_users "a" "b" 1000 1000.125 t0 t1
                  (Some "yours") (Some "mine") Hab)).
Defined.

(** ** X13 *)

Lemma get_set_is_Some {V : Type} (k k' : string) (v : V) (d : list (string * V)) :
  is_Some (Dict.get k' (Dict.set k v d)) ↔ k = k' ∨ is_Some (Dict.get k' d).
Proof.
  destruct (decide (k = k')) as [->|Hne].
  - rewrite get_set_eq. split; [by left | by eexists].
  - rewrite get_set_other by done. split; [by right | by intros [?|?]].
Qed.

(** X13: the life of a connection.  After a handler has run, a
    connection_id is in [users] exactly when the request was its [connect],
    or it was there before and the request was not its [disconnect]: no
    other event adds or removes a user. *)
Theorem connection_lifecycle (r : Request) (s : State) (sid : string) :
  NoDup (Dict.keys (users s)) →
  is_Some (_get_user (handle r s).1 sid) ↔
  (is_connect r = true ∧ sid_of r = sid) ∨
  (is_Some (_get_user s sid) ∧ r ≠ disconnect sid).
Proof.
  intros Hnd. unfold _get_user.
  assert (Hkeep : ∀ r', (∀ k', r' ≠ disconnect k') → is_connect r' = false →
            is_Some (Dict.get sid (users s)) ↔
            (is_connect r' = true ∧ sid_of r' = sid) ∨
            (is_Some (Dict.get sid (users s)) ∧ r' ≠ disconnect sid)).
  { intros r' Hd Hc. rewrite Hc. split; [by right | by intros [[? _]|[? _]]]. }
  assert (Hset : ∀ r' v, (∀ k', r' ≠ disconnect k') → is_connect r' = false →
            is_Some (Dict.get (sid_of r') (users s)) →
            is_Some (Dict.get sid (Dict.set (sid_of r') v (users s))) ↔
            (is_connect r' = true ∧ sid_of r' = sid) ∨
            (is_Some (Dict.get sid (users s)) ∧ r' ≠ disconnect sid)).
  { intros r' v Hd Hc Hp. rewrite get_set_is_Some, <- (Hkeep r' Hd Hc).
    split; [intros [<-|?]; done | by right]. }
  destruct r as [k n p|k|k now ts m|k p nm|k p g|k b|k ts to m].
  - simpl. rewrite get_set_is_Some. split.
    + intros [->|H]; [by left|].
      destruct (decide (k = sid)) as [->|?]; [by left | by right].
    + intros [[_ ->]|[H _]]; [by left | by right].
  - simpl. unfold on_disconnect.
    pose proof (get_pop_same k (users s) Hnd) as Hsame.
    pose proof (get_pop_other k sid (users s)) as Hother.
    destruct (Dict.pop k (users s)) as [[u|] us]; simpl in *;
      (destruct (decide (k = sid)) as [->|Hne];
       [ rewrite Hsame; split; [by intros [? ?] | by intros [[? _]|[_ ?]]]
       | rewrite Hother by done; split;
         [ intros H; right; split; [done | congruence]
         | by intros [[? _]|[? _]] ] ]).
  - assert (Hus : users (handle (send_message k now ts m) s).1 = users s)
      by (by apply handle_keeps_users).
    rewrite Hus. by apply Hkeep.
  - cbn [handle]. unfold on_update_username, _get_user.
    destruct (Dict.get k (users s)) as [u|] eqn:Hu; [|by apply Hkeep].
    destruct (negb _ || _); [by apply Hkeep|].
    apply (Hset (update_username k p nm)); [done | done | simpl; by rewrite Hu].
  - cbn [handle]. unfold on_update_avatar_gender, _get_user.
    destruct (Dict.get k (users s)) as [u|] eqn:Hu; [|by apply Hkeep].
    destruct g as [g|]; [|by apply Hkeep].
    destruct (bool_decide _ || bool_decide _); [|by apply Hkeep].
    apply (Hset (update_avatar_gender k p (Some g))); [done | done | simpl; by rewrite Hu].
  - assert (Hus : users (handle (typing k b) s).1 = users s)
      by (by apply handle_keeps_users).
    rewrite Hus. by apply Hkeep.
  - assert (Hus : users (handle (send_private_message k ts to m) s).1 = users s)
      by (by apply handle_keeps_users).
    rewrite Hus. by apply Hkeep.
Qed.

Lemma connection_lifecycle_witness :
  is_Some (_get_user (handle (disconnect "a") two_users).1 "b") ∧
  ¬ is_Some (_get_user (handle (disconnect "a") two_users).1 "a").
Proof.
  pose proof (λ k, connection_lifecycle (disconnect "a") two_users k
                     (proj1 (proj2 wf_two_users))) as H.
  split.
  - apply (H "b"). right. split; [by eexists | discriminate].
  - intros [[Hc _]|[_ Hd]]%(H "a"); [discriminate | done].
Defined.

(** ** X14 *)

(** X14: in every state the server reaches from its start, through requests
    as the gateway delivers them, no connection_id occurs twice in [users]
    and every record is consistent: its name is not empty, its gender is
    "boy" or "girl", and its avatar is the URL built from its current
    gender and name. *)
Theorem reachable_records_consistent (rs : list Request) :
  Forall gateway_ok rs →
  NoDup (Dict.keys (users (run rs initial).1)) ∧
  ∀ sid u, _get_user (run rs initial).1 sid = Some u →
    username u ≠ "" ∧
    (gender u = "boy" ∨ gender u = "girl") ∧
    avatar u = avatar_url (gender u) (username u).
Proof.
  intros Hrs. pose proof (run_wf rs initial Hrs wf_initial) as Hwf.
  split; [apply Hwf|]. intros sid u Hu.
  by destruct (wf_entry_lookup _ _ _ Hwf Hu) as (_ & ? & ? & ?).
Qed.

Lemma reachable_records_consistent_witness :
  NoDup (Dict.keys (users
    (run [connect "a" 1234 boy; update_username "a" girl (Some "Ann");
          update_avatar_gender "a" boy (Some "girl")] initial).1)) ∧
  avatar (mkUser "Ann" (avatar_url "girl" "Ann") "girl")
  = avatar_url (gender (mkUser "Ann" (avatar_url "girl" "Ann") "girl"))
               (username (mkUser "Ann" (avatar_url "girl" "Ann") "girl")).
Proof.
  assert (Hsid : "a" ≠ "") by discriminate.
  assert (Hn : (1000 ≤ 1234 ≤ 9999)%N) by lia.
  assert (Hok : Forall gateway_ok
                  [connect "a" 1234 boy; update_username "a" girl (Some "Ann");
                   update_avatar_gender "a" boy (Some "girl")]).
  { apply Forall_cons_2; [exact (conj Hsid Hn)|].
    apply Forall_cons_2; [exact (conj Hsid I)|].
    apply Forall_cons_2; [exact (conj Hsid I) | apply Forall_nil_2]. }
  split; [exact (proj1 (reachable_records_consistent _ Hok))|].
  exact (proj2 (proj2 (proj2 (reachable_records_consistent _ Hok) "a"
                         (mkUser "Ann" (avatar_url "girl" "Ann") "girl") eq_refl))).
Defined.

(** ** X15 *)

Lemma pretty_N_char_digit (x : N) : is_digit (pretty_N_char x) = true.
Proof. unfold pretty_N_char. by repeat case_match. Qed.

Lemma pretty_four_digits (n : N) :
  (1000 ≤ n ≤ 9999)%N →
  pretty n =
    String (pretty_N_char ((n / 10 / 10 / 10) mod 10)%N)
      (String (pretty_N_char ((n / 10 / 10) mod 10)%N)
         (String (pretty_N_char ((n / 10) mod 10)%N)
            (String (pretty_N_char (n mod 10)%N) ""))).
Proof.
  intros [Hlo Hhi]. unfold pretty, pretty_N.
  rewrite decide_False by lia.
  assert (H1 : (100 ≤ n / 10 < 1000)%N).
  { split; [apply N.div_le_lower_bound; lia | apply N.Div0.div_lt_upper_bound; lia]. }
  assert (H2 : (10 ≤ n / 10 / 10 < 100)%N).
  { split; [apply N.div_le_lower_bound; lia | apply N.Div0.div_lt_upper_bound; lia]. }
  assert (H3 : (1 ≤ n / 10 / 10 / 10 < 10)%N).
  { split; [apply N.div_le_lower_bound; lia | apply N.Div0.div_lt_upper_bound; lia]. }
  rewrite !pretty_N_go_step by lia.
  rewrite (N.div_small (n / 10 / 10 / 10) 10) by lia.
  apply pretty_N_go_0.
Qed.

(** X15: the name [on_connect] assigns, announces in [set_username] and
    stores is [User_] followed by exactly four decimal digits, for every
    number [random.randint(1000, 9999)] can return. *)
Theorem on_connect_generated_name (s : State) (sid : string) (n : N) (pick : Pick) :
  (1000 ≤ n ≤ 9999)%N →
  ∃ name,
    generated_name name ∧
    head (on_connect sid n pick s).2 = Some (mkEmit (Room sid) (set_username name)) ∧
    username <$> _get_user (on_connect sid n pick s).1 sid = Some name.
Proof.
  intros Hn. exists ("User_" +:+ pretty n). split; [|split].
  - rewrite (pretty_four_digits n Hn). do 4 eexists. split; [reflexivity|].
    by rewrite !pretty_N_char_digit.
  - done.
  - unfold on_connect, _get_user. simpl. by rewrite get_set_eq.
Qed.

Lemma on_connect_generated_name_witness :
  ∃ name,
    generated_name name ∧
    head (on_connect "a" 1000 boy initial).2
      = Some (mkEmit (Room "a") (set_username name)) ∧
    username <$> _get_user (on_connect "a" 1000 boy initial).1 "a" = Some name.
Proof.
  assert (Hn : (1000 ≤ 1000 ≤ 9999)%N) by lia.
  exact (on_connect_generated_name initial "a" 1000 boy Hn).
Defined.

(** ** X16 *)

(** X16: a new connection is replayed the recent history.  After any
    sequence of requests, the second event [on_connect] emits goes to the
    new connection alone and carries the last 150 messages published so
    far, oldest first. *)
Theorem connect_replays_recent_history
    (rs : list Request) (sid : string) (n : N) (pick : Pick) :
  (on_connect sid n pick (run rs initial).1).2 !! 1 =
    Some (mkEmit (Room sid)
            (message_history_ev (last_n 150 (published (run rs initial).2)))).
Proof.
  assert (H0 : length (message_history initial) ≤ MAX_HISTORY).
  { simpl. unfold MAX_HISTORY. lia. }
  pose proof (run_history rs initial H0) as H. simpl in H.
  unfold on_connect. simpl. by rewrite H.
Qed.

(** ** X17 *)

(** X17: a message is published under the sender's identity of the moment.
    After a rename that goes through, the next published message of that
    connection carries the new name and the avatar rebuilt for it, and the
    rename does not reset the sender's throttle: the stored last-send time
    is the one from before. *)
Theorem send_after_rename_uses_new_identity
    (s : State) (sid : string) (u : User) (pick : Pick)
    (new_name body : option string) (now : float) (ts : string) :
  wf_state s →
  _get_user s sid = Some u →
  Str.strip (Str.or_empty new_name) ≠ "" →
  Str.strip (Str.or_empty new_name) ≠ username u →
  Str.strip (Str.or_empty body) ≠ "" →
  let new := Str.strip (Str.or_empty new_name) in
  let renamed := (on_update_username sid pick new_name s).1 in
  last_send renamed sid = last_send s sid ∧
  (PrimFloat.leb 0.25 (PrimFloat.sub now (last_send s sid)) = true →
   (on_send_message sid now ts body renamed).2 =
     [ mkEmit Broadcast
         (new_message (mkPublic new (avatar_url (gender u) new)
                                (Str.strip (Str.or_empty body)) ts)) ]) ∧
  (PrimFloat.ltb (PrimFloat.sub now (last_send s sid)) 0.25 = true →
   (on_send_message sid now ts body renamed).2 = []).
Proof.
  intros Hwf Hu Hnew Hdiff Hbody. cbv zeta.
  destruct (wf_entry_lookup s sid u Hwf Hu) as (_ & _ & Hg & _). simpl in Hg.
  unfold on_update_username. rewrite Hu. cbv zeta.
  apply truthy_true in Hnew. rewrite Hnew.
  rewrite (bool_decide_eq_false_2 _ Hdiff). cbn [negb orb fst snd].
  rewrite build_avatar_given by (by destruct Hg as [->| ->]).
  split; [done|].
  set (u' := mkUser _ _ _). set (s' := mkState _ _ _).
  assert (Hu' : _get_user s' sid = Some u') by apply get_set_eq.
  assert (Hl : last_send s' sid = last_send s sid) by done.
  rewrite (on_send_message_connected sid now ts body s' u' Hu' Hbody), Hl.
  split.
  - intros H%throttled_false. by rewrite H.
  - intros H. unfold throttled, MIN_SECONDS_BETWEEN_MSGS. by rewrite H.
Qed.

Lemma send_after_rename_uses_new_identity_witness :
  (on_send_message "a" 1000 t0 (Some " hello ")
     (on_update_username "a" girl (Some "Ann") one_user).1).2
  = [ mkEmit Broadcast
        (new_message (mkPublic "Ann" (avatar_url "boy" "Ann") "hello" t0)) ].
Proof.
  assert (Hnew : Str.strip (Str.or_empty (Some "Ann")) ≠ "") by discriminate.
  assert (Hdiff : Str.strip (Str.or_empty (Some "Ann")) ≠ username user_a)
    by discriminate.
  assert (Hbody : Str.strip (Str.or_empty (Some " hello ")) ≠ "") by discriminate.
  exact (proj1 (proj2 (send_after_rename_uses_new_identity one_user "a" user_a girl
                         (Some "Ann") (Some " hello ") 1000 t0
                         wf_one_user eq_refl Hnew Hdiff Hbody)) eq_refl).
Defined.

(** ** X18 *)

Lemma set_same {V : Type} (k : string) (v : V) (d : list (string * V)) :
  Dict.get k d = Some v → Dict.set k v d = d.
Proof.
  induction d as [|[k0 v0] d IH]; simpl; [discriminate|].
  destruct (decide (k0 = k)) as [->|Hk].
  - by intros [= ->].
  - intros H. by rewrite IH.
Qed.

(** X18: unlike a rename to the current name, choosing the gender the
    record already has is not filtered out.  In a reachable state the
    handler leaves the state exactly as it was, yet it still broadcasts
    [avatar_updated] with the unchanged avatar and the presence listing. *)
Theorem update_gender_same_value
    (s : State) (sid : string) (u : User) (pick : Pick) :
  wf_state s →
  _get_user s sid = Some u →
  on_update_avatar_gender sid pick (Some (gender u)) s =
    (s, [ mkEmit Broadcast (avatar_updated (username u) (avatar u));
          mkEmit Broadcast (online_users_list (_online_users_payload (users s))) ]).
Proof.
  intros Hwf Hu.
  destruct (wf_entry_lookup s sid u Hwf Hu) as (_ & _ & Hg & Ha). simpl in Hg, Ha.
  unfold on_update_avatar_gender. rewrite Hu.
  assert (Hc : bool_decide (gender u = "boy") || bool_decide (gender u = "girl") = true).
  { destruct Hg as [->| ->]; reflexivity. }
  rewrite Hc. rewrite build_avatar_given by (by destruct Hg as [->| ->]).
  rewrite <- Ha.
  assert (Hrec : mkUser (username u) (avatar u) (gender u) = u) by (by destruct u).
  rewrite Hrec. unfold _get_user in Hu. rewrite (set_same _ _ _ Hu).
  by rewrite state_eta.
Qed.

Lemma update_gender_same_value_witness :
  on_update_avatar_gender "a" girl (Some "boy") one_user =
    (one_user,
     [ mkEmit Broadcast (avatar_updated "User_1234" (avatar user_a));
       mkEmit Broadcast
         (online_users_list [mkPresence "User_1234" (avatar user_a)]) ]).
Proof. exact (update_gender_same_value one_user "a" user_a girl wf_one_user eq_refl). Defined.
